(** * Order reconciliation: a shallow embedding of the comparison code

    The embedding covers
    - [CompareOrders]: [compare_orders] of src/Order_Flow/compare_orders.py
      (pd.to_numeric with errors='coerce', .str.lower(), the outer
      pd.merge, the presence, quantity and price columns and
      [get_sync_status]);
    - [LegacyLookup]: the legacy join of [create_shopify_orders_basesku]
      in src/Order_Flow/create_excel_report.py;
    - [StockCrossRef]: the [potential_size_mismatches] query of
      src/Shopify_Odoo_Stock_Cross_Ref/get_odoo_stock_current.py.

    SQL NULL and pandas NaN are [None]; numbers are rationals [Q]; strings
    are [String.string] and case folding is ASCII case folding. *)

From Stdlib Require Import String Ascii List Bool Arith Lia QArith Qabs.
Import ListNotations.
Open Scope string_scope.

(** ** Shared helpers *)

(** ASCII lower case, as Python's [str.lower] acts on ASCII text. *)
Definition lower_ascii (c : ascii) : ascii :=
  let n := nat_of_ascii c in
  if ((65 <=? n) && (n <=? 90))%nat then ascii_of_nat (n + 32)%nat else c.

Fixpoint lower (s : string) : string :=
  match s with
  | EmptyString => EmptyString
  | String c s' => String (lower_ascii c) (lower s')
  end.

Definition opt_string_eqb (a b : option string) : bool :=
  match a, b with
  | Some x, Some y => String.eqb x y
  | None, None => true
  | _, _ => false
  end.

Definition Qltb (x y : Q) : bool := negb (Qle_bool y x).

Definition isna {A} (x : option A) : bool :=
  match x with None => true | Some _ => false end.

(** ** compare_orders.py *)

Module CompareOrders.

(** A cell as [pd.read_sql_query] hands it over: a number, a text or NULL. *)
Inductive Value :=
| VNum (q : Q)
| VText (s : string)
| VNull.

(** The [errors] argument of [pd.to_numeric]. *)
Inductive Errors := Raise | Coerce.

(** The result of a pandas call: a value or a raised exception. *)
Definition Result (A : Type) := sum string A.
Definition ret {A} (x : A) : Result A := inr x.
Definition bind {A B} (m : Result A) (f : A -> Result B) : Result B :=
  match m with inl e => inl e | inr x => f x end.
Notation "x <- m ;; k" := (bind m (fun x => k))
  (at level 61, m at next level, right associativity).

Fixpoint mapM {A B} (f : A -> Result B) (l : list A) : Result (list B) :=
  match l with
  | [] => ret []
  | x :: l' => y <- f x ;; ys <- mapM f l' ;; ret (y :: ys)
  end.

Section Compare.

(** How pandas reads a number out of a text cell; the properties below
    hold for any such reader. *)
Variable parse_number : string -> option Q.

(** [pd.to_numeric(x, errors=...)] on one cell. *)
Definition to_numeric (errors : Errors) (v : Value) : Result (option Q) :=
  match v with
  | VNum q => ret (Some q)
  | VNull => ret None
  | VText s =>
      match parse_number s with
      | Some q => ret (Some q)
      | None =>
          match errors with
          | Raise => inl ("Unable to parse string " ++ s)
          | Coerce => ret None
          end
      end
  end.

(** One line of [load_shopify_orders] (the columns the comparison reads). *)
Record ShopifyLine := {
  shopify_order_number : option string;
  shopify_sku : option string;
  shopify_quantity : Value;
  shopify_price : Value }.

(** One line of [load_odoo_orders]. *)
Record OdooLine := {
  odoo_shopify_order_number : option string;
  odoo_sku : option string;
  odoo_quantity : Value;
  odoo_price : Value }.

(** A line after the numeric columns went through [pd.to_numeric]. *)
Record SLine := {
  s_order_number : option string;
  s_sku : option string;
  s_quantity : option Q;
  s_price : option Q }.

Record OLine := {
  o_order_number : option string;
  o_sku : option string;
  o_quantity : option Q;
  o_price : option Q }.

Definition coerce_shopify (l : ShopifyLine) : Result SLine :=
  q <- to_numeric Coerce (shopify_quantity l) ;;
  p <- to_numeric Coerce (shopify_price l) ;;
  ret {| s_order_number := shopify_order_number l; s_sku := shopify_sku l;
         s_quantity := q; s_price := p |}.

Definition coerce_odoo (l : OdooLine) : Result OLine :=
  q <- to_numeric Coerce (odoo_quantity l) ;;
  p <- to_numeric Coerce (odoo_price l) ;;
  ret {| o_order_number := odoo_shopify_order_number l; o_sku := odoo_sku l;
         o_quantity := q; o_price := p |}.

End Compare.

(** [.str.lower()] on a column: NaN stays NaN. *)
Definition str_lower (x : option string) : option string := option_map lower x.

(** The merge keys [left_on] / [right_on]. *)
Definition shopify_key (l : SLine) : option string * option string :=
  (str_lower (s_order_number l), str_lower (s_sku l)).
Definition odoo_key (l : OLine) : option string * option string :=
  (str_lower (o_order_number l), str_lower (o_sku l)).

(** Key equality of [pd.merge]: null keys are matched against each other. *)
Definition key_eqb (a b : option string * option string) : bool :=
  opt_string_eqb (fst a) (fst b) && opt_string_eqb (snd a) (snd b).

Definition matches (s : SLine) (o : OLine) : bool :=
  key_eqb (shopify_key s) (odoo_key o).

(** [pd.merge(shopify_df, odoo_df, how='outer', ...)]: each Shopify line
    paired with every Odoo line of the same key (or with nothing), then
    the Odoo lines no Shopify line matched.  pandas sorts the result by
    key; the row order is not modelled. *)
Definition merge_outer (S : list SLine) (O : list OLine)
  : list (option SLine * option OLine) :=
  flat_map (fun s =>
      match filter (matches s) O with
      | [] => [(Some s, None)]
      | os => map (fun o => (Some s, Some o)) os
      end) S
  ++ map (fun o => (None, Some o))
         (filter (fun o => negb (existsb (fun s => matches s o) S)) O).

(** The part of the merge contributed by one Shopify line. *)
Definition left_part (O : list OLine) (s : SLine) : list (option SLine * option OLine) :=
  match filter (matches s) O with
  | [] => [(Some s, None)]
  | os => map (fun o => (Some s, Some o)) os
  end.

Definition unmatched (S : list SLine) (O : list OLine) : list OLine :=
  filter (fun o => negb (existsb (fun s => matches s o) S)) O.

(** The number of rows of the outer join: each Shopify line times the
    number of Odoo lines of its key (at least one row), plus the Odoo lines
    of keys Shopify does not have. *)
Definition outer_join_size (S : list SLine) (O : list OLine) : nat :=
  list_sum (map (fun s => Nat.max 1 (length (filter (matches s) O))) S)
  + length (unmatched S O).

(** Element-wise column arithmetic with NaN propagation. *)
Definition col_eq (a b : option Q) : bool :=
  match a, b with Some x, Some y => Qeq_bool x y | _, _ => false end.
Definition col_sub (a b : option Q) : option Q :=
  match a, b with Some x, Some y => Some (x - y) | _, _ => None end.
Definition col_abs (a : option Q) : option Q := option_map Qabs a.
Definition col_lt (a : option Q) (c : Q) : bool :=
  match a with Some x => Qltb x c | None => false end.

Definition quantity_match_of (sq oq : option Q) : bool :=
  col_eq sq oq || (isna sq && isna oq).

Definition price_match_of (sp op : option Q) : bool :=
  col_lt (col_abs (col_sub sp op)) (1 # 100) || (isna sp && isna op).

Inductive SyncStatus :=
| MissingInShopify
| MissingInOdoo
| QuantityMismatch
| PriceMismatch
| Synced.

Definition sync_status_label (st : SyncStatus) : string :=
  match st with
  | MissingInShopify => "Missing in Shopify"
  | MissingInOdoo => "Missing in Odoo"
  | QuantityMismatch => "Quantity mismatch"
  | PriceMismatch => "Price mismatch"
  | Synced => "Synced"
  end.

(** One row of [merged_df] with the columns the comparison adds. *)
Record MergedRow := {
  row_shopify : option SLine;
  row_odoo : option OLine;
  in_shopify : bool;
  in_odoo : bool;
  quantity_match : bool;
  price_match : bool;
  sync_status : SyncStatus }.

Definition get_sync_status (in_shopify in_odoo quantity_match price_match : bool)
  : SyncStatus :=
  if negb in_shopify then MissingInShopify
  else if negb in_odoo then MissingInOdoo
  else if negb quantity_match then QuantityMismatch
  else if negb price_match then PriceMismatch
  else Synced.

Definition side_order_number_s (x : option SLine) : option string :=
  match x with Some s => s_order_number s | None => None end.
Definition side_order_number_o (x : option OLine) : option string :=
  match x with Some o => o_order_number o | None => None end.
Definition side_quantity_s (x : option SLine) : option Q :=
  match x with Some s => s_quantity s | None => None end.
Definition side_quantity_o (x : option OLine) : option Q :=
  match x with Some o => o_quantity o | None => None end.
Definition side_price_s (x : option SLine) : option Q :=
  match x with Some s => s_price s | None => None end.
Definition side_price_o (x : option OLine) : option Q :=
  match x with Some o => o_price o | None => None end.

Definition build_row (p : option SLine * option OLine) : MergedRow :=
  let '(s, o) := p in
  let ins := negb (isna (side_order_number_s s)) in
  let ino := negb (isna (side_order_number_o o)) in
  let qm := quantity_match_of (side_quantity_s s) (side_quantity_o o) in
  let pm := price_match_of (side_price_s s) (side_price_o o) in
  {| row_shopify := s; row_odoo := o; in_shopify := ins; in_odoo := ino;
     quantity_match := qm; price_match := pm;
     sync_status := get_sync_status ins ino qm pm |}.

(** [merged_df] once the comparison columns and [sync_status] are added. *)
Definition comparison_rows (S : list SLine) (O : list OLine) : list MergedRow :=
  map build_row (merge_outer S O).

(** [compare_orders(shopify_df, odoo_df)]. *)
Definition compare_orders (parse_number : string -> option Q)
    (S : list ShopifyLine) (O : list OdooLine) : Result (list MergedRow) :=
  S' <- mapM (coerce_shopify parse_number) S ;;
  O' <- mapM (coerce_odoo parse_number) O ;;
  ret (comparison_rows S' O').

End CompareOrders.

(** SQL [=] on text: a comparison with NULL is never true. *)
Definition sql_eq (a b : option string) : bool :=
  match a, b with Some x, Some y => String.eqb x y | _, _ => false end.
Arguments sql_eq : simpl never.

(** SQL [DISTINCT] with a given row equality: the first of equal rows is
    kept. *)
Fixpoint distinct_aux {R} (eqb : R -> R -> bool) (seen l : list R) : list R :=
  match l with
  | [] => rev seen
  | y :: l' =>
      if existsb (fun x => eqb x y) seen then distinct_aux eqb seen l'
      else distinct_aux eqb (y :: seen) l'
  end.

Definition distinct {R} (eqb : R -> R -> bool) (l : list R) : list R :=
  distinct_aux eqb [] l.

(** ** create_excel_report.py: the legacy join *)

Module LegacyLookup.

(** One row of the [legacy_lookup] table (loaded from legacy_lookup.xlsx;
    a blank cell is NULL). *)
Record LegacyRow := {
  legacy_sku : option string;
  base_sku : option string }.

(** The [SKU] column of [shopify_orders_basesku] for one Shopify line:
    [LEFT OUTER JOIN legacy_lookup B ON A."Lineitem sku" = B.legacy_sku]
    then [CASE WHEN B.base_sku IS NULL THEN A."Lineitem sku"
    ELSE base_sku || '-01G' END].  A left join gives one output per
    matching row of [legacy_lookup], or one with B's columns NULL. *)
Definition resolve_sku (legacy_lookup : list LegacyRow) (sku : option string)
  : list (option string) :=
  let case_sku (base : option string) :=
    match base with
    | None => sku
    | Some b => Some (b ++ "-01G")
    end in
  match filter (fun r => sql_eq sku (legacy_sku r)) legacy_lookup with
  | [] => [case_sku None]
  | rs => map (fun r => case_sku (base_sku r)) rs
  end.

(** The Shopify order line columns the [SKU] column is built from. *)
Record ShopifyOrderRow := {
  Name : option string;
  Lineitem_sku : option string }.

(** [CREATE TABLE shopify_orders_basesku AS SELECT Name, ... AS SKU ...]. *)
Definition create_shopify_orders_basesku (legacy_lookup : list LegacyRow)
    (shopify_orders : list ShopifyOrderRow) : list (option string * option string) :=
  flat_map (fun a => map (fun sku => (Name a, sku))
                         (resolve_sku legacy_lookup (Lineitem_sku a)))
           shopify_orders.

End LegacyLookup.

(** ** get_odoo_stock_current.py: the size mismatch heuristic *)

Module StockCrossRef.

(** [default_code.split('-')]. *)
Fixpoint split_dash (s : string) : list string :=
  match s with
  | EmptyString => [EmptyString]
  | String c s' =>
      let rest := split_dash s' in
      if Ascii.eqb c "-" then EmptyString :: rest
      else match rest with
           | h :: t => String c h :: t
           | [] => [String c EmptyString]
           end
  end.

(** ['-'.join(parts)]. *)
Fixpoint join_dash (l : list string) : string :=
  match l with
  | [] => EmptyString
  | [x] => x
  | x :: l' => x ++ "-" ++ join_dash l'
  end.

Definition get_plant_prefix (default_code : string) : string :=
  join_dash (removelast (split_dash default_code)).

Definition get_suffix (default_code : string) : string :=
  let parts := split_dash default_code in
  if (1 <? length parts)%nat then last parts EmptyString else EmptyString.

(** SQLite [LIKE] without ESCAPE: [%] matches any run of characters,
    [_] any one character, other characters match up to ASCII case. *)
Fixpoint like (p s : string) {struct p} : bool :=
  match p with
  | EmptyString => match s with EmptyString => true | _ => false end
  | String c p' =>
      if Ascii.eqb c "%" then
        (fix any (t : string) : bool :=
           like p' t || match t with
                        | EmptyString => false
                        | String _ t' => any t'
                        end) s
      else
        match s with
        | EmptyString => false
        | String d s' =>
            (Ascii.eqb c "_" || Ascii.eqb (lower_ascii c) (lower_ascii d))
            && like p' s'
        end
  end.

(** A row of [odoostock]: one stock quant with its [default_code]; the
    [plant_prefix] and [size_suffix] columns are computed from it. *)
Record OdooStock := {
  default_code : string;
  quantity : Q }.

Definition plant_prefix (o : OdooStock) : string := get_plant_prefix (default_code o).
Definition size_suffix (o : OdooStock) : string := get_suffix (default_code o).

(** A row of [shopifyproducts] (the columns the query reads). *)
Record ShopifyProduct := {
  sku : option string;
  option1 : option string;
  inventory_quantity : option Q }.

(** A row of [potential_size_mismatches]. *)
Record PSMRow := {
  odoo_sku : string;
  odoo_size : string;
  odoo_qty : Q;
  correct_shopify_sku : option string;
  correct_size : option string;
  shopify_qty : option Q;
  mismatch_note : option string }.

Definition opt_q_eqb (a b : option Q) : bool :=
  match a, b with
  | Some x, Some y => Qeq_bool x y
  | None, None => true
  | _, _ => false
  end.

(** Row equality of [SELECT DISTINCT]. *)
Definition psm_row_eqb (r r' : PSMRow) : bool :=
  String.eqb (odoo_sku r) (odoo_sku r') && String.eqb (odoo_size r) (odoo_size r')
  && Qeq_bool (odoo_qty r) (odoo_qty r')
  && opt_string_eqb (correct_shopify_sku r) (correct_shopify_sku r')
  && opt_string_eqb (correct_size r) (correct_size r')
  && opt_q_eqb (shopify_qty r) (shopify_qty r')
  && opt_string_eqb (mismatch_note r) (mismatch_note r').

(** SQL [||]: NULL if an operand is NULL. *)
Definition sql_concat (a b : option string) : option string :=
  match a, b with Some x, Some y => Some (x ++ y) | _, _ => None end.

(** [WITH plant_prefixes AS (SELECT DISTINCT plant_prefix FROM odoostock
    WHERE plant_prefix != '')]. *)
Definition plant_prefixes (odoostock : list OdooStock) : list string :=
  distinct String.eqb
    (filter (fun x => negb (String.eqb x EmptyString)) (map plant_prefix odoostock)).

(** [LEFT JOIN shopifyproducts s1 ON o.default_code = s1.sku]. *)
Definition s1_rows (shopifyproducts : list ShopifyProduct) (o : OdooStock)
  : list (option ShopifyProduct) :=
  match filter (fun s1 => sql_eq (Some (default_code o)) (sku s1)) shopifyproducts with
  | [] => [None]
  | l => map Some l
  end.

Definition s1_quantity (s1 : option ShopifyProduct) : option Q :=
  match s1 with Some p => inventory_quantity p | None => None end.

(** [JOIN shopifyproducts s2 ON s2.sku LIKE o.plant_prefix || '-%'
    AND s2.sku != o.default_code]. *)
Definition s2_on (o : OdooStock) (s2 : ShopifyProduct) : bool :=
  match sku s2 with
  | Some t => like (plant_prefix o ++ "-%") t && negb (String.eqb t (default_code o))
  | None => false
  end.

(** The WHERE clause. *)
Definition psm_where (o : OdooStock) (s1 s2 : option Q) : bool :=
  Qltb 0 (quantity o)
  && match s1 with None => true | Some x => Qeq_bool x 0 end
  && match s2 with
     | Some y => Qltb 0 y && Qle_bool (Qabs (quantity o - y)) 5
     | None => false
     end.

Definition psm_select (o : OdooStock) (s2 : ShopifyProduct) : PSMRow :=
  {| odoo_sku := default_code o;
     odoo_size := size_suffix o;
     odoo_qty := quantity o;
     correct_shopify_sku := sku s2;
     correct_size := option1 s2;
     shopify_qty := inventory_quantity s2;
     mismatch_note :=
       sql_concat (sql_concat (Some ("Size mismatch: Odoo has " ++ size_suffix o
                                     ++ " but Shopify has ")) (option1 s2))
                  (Some " with matching quantity") |}.

(** [potential_size_mismatches]. *)
Definition potential_size_mismatches (odoostock : list OdooStock)
    (shopifyproducts : list ShopifyProduct) : list PSMRow :=
  distinct psm_row_eqb
    (flat_map (fun o =>
       flat_map (fun pp =>
         if String.eqb (plant_prefix o) pp then
           flat_map (fun s1 =>
             flat_map (fun s2 =>
               if s2_on o s2 && psm_where o (s1_quantity s1) (inventory_quantity s2)
               then [psm_select o s2] else [])
               shopifyproducts)
             (s1_rows shopifyproducts o)
         else [])
         (plant_prefixes odoostock))
       odoostock).

(** A row of [odoo_total_stock] (the columns the report reads);
    [product_id] is the display name [clean_fields] keeps. *)
Record TotalStock := {
  product_id : string;
  location_id : string;
  ODOO_QTY : Q;
  ODOO_AVAILABLE_QTY : Q;
  ts_default_code : string }.

(** A row of the [combined_shopify] CTE: [sku], [MAX(status)] and the
    [MAX(COALESCE(..., 0))] on-hand and available quantities. *)
Record CombinedShopify := {
  cs_sku : option string;
  cs_status : option string;
  cs_on_hand : Q;
  cs_available : Q }.

(** A row of the [loc_count] table. *)
Record LocCountRow := {
  lc_product_id : string;
  lc_loc_count : nat }.

(** A row of [stock_cross_reference]: the product, location and count
    columns, the Odoo and Shopify quantities, the status and the mismatch
    columns (the DIFF, title and committed/unavailable columns are not
    modelled). *)
Record CrossRefRow := {
  xr_product_id : string;
  xr_location_id : string;
  xr_loc_count : option nat;
  ODOO_ONHAND_QTY : Q;
  xr_ODOO_AVAILABLE_QTY : Q;
  SHOPIFY_ONHAND_QTY : option Q;
  SHOPIFY_AVAILABLE_QTY : option Q;
  xr_Status : option string;
  Potential_Correct_SKU : option string;
  Potential_Correct_Size : option string;
  Size_Mismatch_Note : option string }.

(** [LEFT OUTER JOIN ... ON cond]: the matching rows, or one row of NULLs. *)
Definition left_join {B} (on : B -> bool) (bs : list B) : list (option B) :=
  match filter on bs with
  | [] => [None]
  | l => map Some l
  end.

Definition cs_status_of (cs : option CombinedShopify) : option string :=
  match cs with Some c => cs_status c | None => None end.

(** [WHERE (CS.status = 'active' OR CS.status IS NULL) AND A.ODOO_QTY <> 0]. *)
Definition report_where (a : TotalStock) (cs : option CombinedShopify) : bool :=
  match cs_status_of cs with
  | None => true
  | Some st => String.eqb st "active"
  end && negb (Qeq_bool (ODOO_QTY a) 0).

(** The SELECT list of [stock_cross_reference] for one joined row. *)
Definition cross_ref_row (a : TotalStock) (cs : option CombinedShopify)
    (c : option LocCountRow) (r : option PSMRow) : CrossRefRow :=
  {| xr_product_id := product_id a; xr_location_id := location_id a;
     xr_loc_count := match c with Some c => Some (lc_loc_count c) | None => None end;
     ODOO_ONHAND_QTY := ODOO_QTY a; xr_ODOO_AVAILABLE_QTY := ODOO_AVAILABLE_QTY a;
     SHOPIFY_ONHAND_QTY := match cs with Some c => Some (cs_on_hand c) | None => None end;
     SHOPIFY_AVAILABLE_QTY := match cs with Some c => Some (cs_available c) | None => None end;
     xr_Status := cs_status_of cs;
     Potential_Correct_SKU := match r with Some r => correct_shopify_sku r | None => None end;
     Potential_Correct_Size := match r with Some r => correct_size r | None => None end;
     Size_Mismatch_Note := match r with Some r => mismatch_note r | None => None end |}.

(** [CREATE TABLE stock_cross_reference AS ... SELECT ... FROM
    odoo_total_stock A LEFT OUTER JOIN combined_shopify CS ON A.default_code
    = CS.sku LEFT OUTER JOIN loc_count C ON A.product_id = C.product_id LEFT
    OUTER JOIN potential_size_mismatches psm ON A.default_code = psm.odoo_sku
    WHERE (CS.status = 'active' OR CS.status IS NULL) AND A.ODOO_QTY <> 0];
    the WHERE reads only A and CS, so it is applied once CS is joined.  The
    ORDER BY is not modelled. *)
Definition stock_cross_reference (odoo_total_stock : list TotalStock)
    (combined_shopify : list CombinedShopify) (loc_count : list LocCountRow)
    (psm : list PSMRow) : list CrossRefRow :=
  flat_map (fun a =>
      flat_map (fun cs =>
          if report_where a cs then
            flat_map (fun c =>
                map (fun r => cross_ref_row a cs c r)
                  (left_join (fun r => String.eqb (ts_default_code a) (odoo_sku r)) psm))
              (left_join (fun c => String.eqb (product_id a) (lc_product_id c)) loc_count)
          else [])
        (left_join (fun cs => sql_eq (Some (ts_default_code a)) (cs_sku cs)) combined_shopify))
    odoo_total_stock.

(** The ON and WHERE conditions of [potential_size_mismatches] for an
    [odoostock] row [o] and a Shopify product [s2], spelled out. *)
Definition size_mismatch_condition (shopifyproducts : list ShopifyProduct)
    (o : OdooStock) (s2 : ShopifyProduct) : Prop :=
  plant_prefix o <> EmptyString /\
  (0 < quantity o)%Q /\
  ((forall p, In p shopifyproducts -> sku p <> Some (default_code o)) \/
   (exists p, In p shopifyproducts /\ sku p = Some (default_code o) /\
      (inventory_quantity p = None \/
       exists x, inventory_quantity p = Some x /\ (x == 0)%Q))) /\
  (exists t y, sku s2 = Some t /\ like (plant_prefix o ++ "-%") t = true /\
     t <> default_code o /\ inventory_quantity s2 = Some y /\ (0 < y)%Q /\
     (Qabs (quantity o - y) <= 5)%Q).

End StockCrossRef.

(** ** compare_orders.py: the status counts and [generate_sync_report] *)

Module SyncReport.
Import CompareOrders.

(** [merged_df[merged_df['sync_status'] == label]]. *)
Definition rows_with_status (rows : list MergedRow) (label : string) : list MergedRow :=
  filter (fun r => String.eqb (sync_status_label (sync_status r)) label) rows.

(** The counts [compare_orders] prints once the comparison is complete:
    the total, then Synced, Missing in Shopify, Missing in Odoo, Quantity
    mismatch and Price mismatch. *)
Definition status_counts (rows : list MergedRow) : nat * list nat :=
  (length rows,
   [length (rows_with_status rows "Synced");
    length (rows_with_status rows "Missing in Shopify");
    length (rows_with_status rows "Missing in Odoo");
    length (rows_with_status rows "Quantity mismatch");
    length (rows_with_status rows "Price mismatch")]).

(** [missing_in_odoo] of [generate_sync_report]. *)
Definition missing_in_odoo (rows : list MergedRow) : list MergedRow :=
  rows_with_status rows "Missing in Odoo".

(** [mismatches] of [generate_sync_report]. *)
Definition mismatches (rows : list MergedRow) : list MergedRow :=
  filter (fun r => String.eqb (sync_status_label (sync_status r)) "Quantity mismatch"
                   || String.eqb (sync_status_label (sync_status r)) "Price mismatch") rows.

(** What [generate_sync_report] prints: the two totals and the rows of
    [missing_in_odoo.head(5)] and [mismatches.head(5)]. *)
Definition generate_sync_report (rows : list MergedRow)
  : nat * nat * list MergedRow * list MergedRow :=
  (length (missing_in_odoo rows), length (mismatches rows),
   firstn 5 (missing_in_odoo rows), firstn 5 (mismatches rows)).

End SyncReport.

(** ** create_excel_report.py: the [excel_report] table *)

Module ExcelReport.
Import LegacyLookup.

(** A row of [odoo_orders] (the columns the report reads). *)
Record OdooOrderRow := {
  Odoo_Name : option string;
  Product_Default_Code : option string;
  Delivery_Status : option string }.

(** A row of [excel_report]: [Name], [SKU] and [B.Delivery_Status]; the
    other columns are copied from the [shopify_orders_basesku] row. *)
Record ExcelRow := {
  report_Name : option string;
  report_SKU : option string;
  report_Delivery_Status : option string }.

(** [SELECT Name, ..., SKU, ..., B.Delivery_Status, ... FROM
    shopify_orders_basesku A LEFT OUTER JOIN odoo_orders B ON A.Name =
    B.Odoo_Name AND A.SKU = B.Product_Default_Code ORDER BY Name DESC];
    the rows of [shopify_orders_basesku] are its ([Name], [SKU]) pairs.
    The row order is not modelled. *)
Definition excel_report (shopify_orders_basesku : list (option string * option string))
    (odoo_orders : list OdooOrderRow) : list ExcelRow :=
  flat_map (fun a =>
      let '(n, k) := a in
      match filter (fun b => sql_eq n (Odoo_Name b) && sql_eq k (Product_Default_Code b))
                   odoo_orders with
      | [] => [{| report_Name := n; report_SKU := k; report_Delivery_Status := None |}]
      | bs => map (fun b => {| report_Name := n; report_SKU := k;
                               report_Delivery_Status := Delivery_Status b |}) bs
      end) shopify_orders_basesku.

End ExcelReport.

(** ** get_odoo_stock_current.py: the Odoo fields and [odoo_total_stock] *)

Module StockTotals.
Import StockCrossRef.

(** The [product_id] of a [stock.quant] as the XML-RPC read returns it:
    [False], a text, or a many2one pair [[id, display_name]]. *)
Inductive OdooField :=
| FFalse
| FText (s : string)
| FMany2one (id : nat) (display_name : string).

(** [str(fieldvalue)] after [fieldvalue = fieldvalue[1]] for a list. *)
Definition field_text (f : OdooField) : string :=
  match f with
  | FFalse => "False"
  | FText s => s
  | FMany2one _ n => n
  end.

Definition newline : ascii := ascii_of_nat 10.

(** The lazy group [(.*?)\]] from a position: the text up to the first
    [']'], failing at a newline ([.] does not match it) or at the end. *)
Fixpoint bracket_body (s : string) : option string :=
  match s with
  | EmptyString => None
  | String c s' =>
      if Ascii.eqb c "]" then Some EmptyString
      else if Ascii.eqb c newline then None
      else option_map (String c) (bracket_body s')
  end.

(** [re.search(r'\[(.*?)\]', text)]: the leftmost ['['] the rest of the
    pattern matches after; [group(1)]. *)
Fixpoint search_brackets (s : string) : option string :=
  match s with
  | EmptyString => None
  | String c s' =>
      if Ascii.eqb c "[" then
        match bracket_body s' with
        | Some b => Some b
        | None => search_brackets s'
        end
      else search_brackets s'
  end.

(** [str.isspace] on an ASCII character: tab, newline, vertical tab, form
    feed, carriage return, the separators \x1c to \x1f and space. *)
Definition is_space (c : ascii) : bool :=
  let n := nat_of_ascii c in
  ((9 <=? n) && (n <=? 13))%nat || ((28 <=? n) && (n <=? 32))%nat.

Fixpoint lstrip (s : string) : string :=
  match s with
  | EmptyString => EmptyString
  | String c s' => if is_space c then lstrip s' else s
  end.

Fixpoint rstrip (s : string) : string :=
  match s with
  | EmptyString => EmptyString
  | String c s' =>
      let r := rstrip s' in
      if is_space c && String.eqb r EmptyString then EmptyString else String c r
  end.

(** [str.strip()]. *)
Definition strip (s : string) : string := rstrip (lstrip s).

(** [extract_default_code(fieldvalue)]. *)
Definition extract_default_code (fieldvalue : OdooField) : string :=
  match search_brackets (field_text fieldvalue) with
  | Some b => strip b
  | None => EmptyString
  end.

(** A row of [odoostock]: [product_id] and [location_id] are the display
    names [clean_fields] keeps, [default_code] is [extract_default_code]
    of the product. *)
Record StockQuant := {
  sq_product_id : string;
  sq_location_id : string;
  sq_quantity : Q;
  sq_available_quantity : Q;
  sq_default_code : string }.

(** A row of [plant_sizes]. *)
Record PlantSize := {
  ps_name : option string;
  container_capacity : option Q }.

(** The GROUP BY columns of [odoo_total_stock]: product, location, default
    code, plant prefix, size suffix and container capacity. *)
Definition GroupKey : Type := (string * string * string * string * string * option Q)%type.

(** Equality of GROUP BY: text by value, numbers numerically, NULLs in
    one group. *)
Definition group_key_eqb (a b : GroupKey) : bool :=
  let '(p, l, d, pp, ss, c) := a in
  let '(p', l', d', pp', ss', c') := b in
  String.eqb p p' && String.eqb l l' && String.eqb d d' && String.eqb pp pp'
  && String.eqb ss ss' && opt_q_eqb c c'.

(** GROUP BY: each row joins the first group of an equal key, or opens a
    new group after the existing ones.  The order of the groups is not
    that of SQLite's output and is not relied on. *)
Fixpoint group_insert {K R} (keq : K -> K -> bool) (k : K) (r : R)
    (gs : list (K * list R)) : list (K * list R) :=
  match gs with
  | [] => [(k, [r])]
  | (k', rs) :: gs' =>
      if keq k' k then (k', (rs ++ [r])%list) :: gs'
      else (k', rs) :: group_insert keq k r gs'
  end.

Definition group_by {K R} (keq : K -> K -> bool) (key : R -> K) (l : list R)
  : list (K * list R) :=
  fold_left (fun gs r => group_insert keq (key r) r gs) l [].

(** [odoostock A LEFT OUTER JOIN plant_sizes B ON A.size_suffix = B.name]:
    each quant with the capacity of every plant size of its suffix, or
    with NULL. *)
Definition joined_sizes (odoostock : list StockQuant) (plant_sizes : list PlantSize)
  : list (StockQuant * option Q) :=
  flat_map (fun a =>
      match filter (fun b => sql_eq (Some (get_suffix (sq_default_code a))) (ps_name b))
                   plant_sizes with
      | [] => [(a, None)]
      | bs => map (fun b => (a, container_capacity b)) bs
      end) odoostock.

Definition joined_key (x : StockQuant * option Q) : GroupKey :=
  let '(a, c) := x in
  (sq_product_id a, sq_location_id a, sq_default_code a,
   get_plant_prefix (sq_default_code a), get_suffix (sq_default_code a), c).

(** A row of the [odoo_total_stock] table. *)
Record TotalStockRow := {
  t_product_id : string;
  t_location_id : string;
  t_ODOO_QTY : Q;
  t_ODOO_AVAILABLE_QTY : Q;
  t_default_code : string;
  t_plant_prefix : string;
  t_size_suffix : string;
  t_container_capacity : option Q }.

Definition row_key (t : TotalStockRow) : GroupKey :=
  (t_product_id t, t_location_id t, t_default_code t, t_plant_prefix t,
   t_size_suffix t, t_container_capacity t).

(** SQLite's [SUM] over REAL columns is a rounded floating-point sum whose
    result depends on the summation algorithm of the SQLite version and on
    the order in which a group's rows are added; it is kept abstract as a
    function [SUM] of the group's values. *)
Section Aggregate.
Variable SUM : list Q -> Q.

(** [CREATE TABLE odoo_total_stock AS SELECT A.product_id, A.location_id,
    SUM(A.quantity) AS ODOO_QTY, SUM(A.available_quantity) AS
    ODOO_AVAILABLE_QTY, A.default_code, A.plant_prefix, A.size_suffix,
    B.container_capacity FROM odoostock A LEFT OUTER JOIN plant_sizes B ON
    A.size_suffix = B.name GROUP BY ...]. *)
Definition odoo_total_stock (odoostock : list StockQuant) (plant_sizes : list PlantSize)
  : list TotalStockRow :=
  map (fun g =>
      let '((p, l, d, pp, ss, c), rs) := g in
      {| t_product_id := p; t_location_id := l;
         t_ODOO_QTY := SUM (map (fun x => sq_quantity (fst x)) rs);
         t_ODOO_AVAILABLE_QTY := SUM (map (fun x => sq_available_quantity (fst x)) rs);
         t_default_code := d; t_plant_prefix := pp; t_size_suffix := ss;
         t_container_capacity := c |})
    (group_by group_key_eqb joined_key (joined_sizes odoostock plant_sizes)).

End Aggregate.

(** [CREATE TABLE loc_count AS SELECT product_id, count( * ) AS loc_count
    FROM odoo_total_stock WHERE ODOO_QTY <> 0 GROUP BY product_id ORDER BY
    loc_count DESC]; the row order is not modelled. *)
Definition loc_count (odoo_total_stock : list TotalStockRow) : list (string * nat) :=
  map (fun g => (fst g, length (snd g)))
    (group_by String.eqb t_product_id
       (filter (fun t => negb (Qeq_bool (t_ODOO_QTY t) 0)) odoo_total_stock)).

End StockTotals.

(** * Properties of the comparison *)

Module CompareOrdersFacts.
Import CompareOrders.

(** ** Helper lemmas *)

Lemma Qltb_iff (x y : Q) : Qltb x y = true <-> x < y.
Proof.
  unfold Qltb; rewrite negb_true_iff; split; intro H.
  - apply Qnot_le_lt; intro Hle; apply Qle_bool_iff in Hle; congruence.
  - destruct (Qle_bool y x) eqn:E; [|reflexivity].
    apply Qle_bool_iff in E; exfalso; apply (Qlt_not_le _ _ H E).
Qed.

Lemma opt_string_eqb_true (a b : option string) :
  opt_string_eqb a b = true <-> a = b.
Proof.
  destruct a as [x|], b as [y|]; simpl; split; intro H; try congruence.
  - apply String.eqb_eq in H; congruence.
  - inversion H; apply String.eqb_refl.
Qed.

Lemma quantity_match_of_spec (a b : option Q) :
  quantity_match_of a b = true <->
  (exists x y, a = Some x /\ b = Some y /\ x == y) \/ (a = None /\ b = None).
Proof.
  destruct a as [x|], b as [y|]; unfold quantity_match_of; simpl;
    rewrite ?orb_false_r; split; intro H.
  - left; exists x, y; repeat split; apply Qeq_bool_iff; exact H.
  - destruct H as [(x' & y' & Hx & Hy & E)|[H1 H2]]; [|discriminate].
    inversion Hx; inversion Hy; subst; apply Qeq_bool_iff; exact E.
  - discriminate.
  - destruct H as [(x' & y' & Hx & Hy & E)|[H1 H2]]; discriminate.
  - discriminate.
  - destruct H as [(x' & y' & Hx & Hy & E)|[H1 H2]]; discriminate.
  - right; split; reflexivity.
  - reflexivity.
Qed.

Lemma price_match_of_spec (a b : option Q) :
  price_match_of a b = true <->
  (a = None /\ b = None) \/
  (exists x y, a = Some x /\ b = Some y /\ Qabs (x - y) < 1 # 100).
Proof.
  destruct a as [x|], b as [y|]; unfold price_match_of; simpl;
    rewrite ?orb_false_r; split; intro H.
  - right; exists x, y; repeat split; apply Qltb_iff; exact H.
  - destruct H as [[H1 H2]|(x' & y' & Hx & Hy & E)]; [discriminate|].
    inversion Hx; inversion Hy; subst; apply Qltb_iff; exact E.
  - discriminate.
  - destruct H as [[H1 H2]|(x' & y' & Hx & Hy & E)]; discriminate.
  - discriminate.
  - destruct H as [[H1 H2]|(x' & y' & Hx & Hy & E)]; discriminate.
  - left; split; reflexivity.
  - reflexivity.
Qed.

Lemma to_numeric_coerce_ok (p : string -> option Q) (v : Value) :
  exists q, to_numeric p Coerce v = inr q.
Proof.
  destruct v as [q|s|]; simpl; [eexists; reflexivity| |eexists; reflexivity].
  destruct (p s); eexists; reflexivity.
Qed.

Lemma coerce_shopify_ok p l : exists l', coerce_shopify p l = inr l'.
Proof.
  unfold coerce_shopify.
  destruct (to_numeric_coerce_ok p (shopify_quantity l)) as [q Hq].
  destruct (to_numeric_coerce_ok p (shopify_price l)) as [r Hr].
  rewrite Hq; simpl; rewrite Hr; simpl; eexists; reflexivity.
Qed.

Lemma coerce_odoo_ok p l : exists l', coerce_odoo p l = inr l'.
Proof.
  unfold coerce_odoo.
  destruct (to_numeric_coerce_ok p (odoo_quantity l)) as [q Hq].
  destruct (to_numeric_coerce_ok p (odoo_price l)) as [r Hr].
  rewrite Hq; simpl; rewrite Hr; simpl; eexists; reflexivity.
Qed.

Lemma mapM_ok {A B} (f : A -> Result B) (l : list A) :
  (forall x, exists y, f x = inr y) -> exists ys, mapM f l = inr ys.
Proof.
  intro Hf; induction l as [|x l IH]; simpl; [eexists; reflexivity|].
  destruct (Hf x) as [y Hy]; destruct IH as [ys Hys].
  rewrite Hy; simpl; rewrite Hys; simpl; eexists; reflexivity.
Qed.

Lemma compare_orders_ok p S O :
  exists S' O', compare_orders p S O = inr (comparison_rows S' O').
Proof.
  unfold compare_orders.
  destruct (mapM_ok (coerce_shopify p) S (coerce_shopify_ok p)) as [S' HS].
  destruct (mapM_ok (coerce_odoo p) O (coerce_odoo_ok p)) as [O' HO].
  rewrite HS; simpl; rewrite HO; simpl; exists S', O'; reflexivity.
Qed.

Lemma merge_outer_unfold S O :
  merge_outer S O = (flat_map (left_part O) S ++ map (fun o => (None, Some o)) (unmatched S O))%list.
Proof. reflexivity. Qed.

Lemma left_part_pair O s o :
  In o O -> matches s o = true -> In (Some s, Some o) (left_part O s).
Proof.
  intros Ho Hm; unfold left_part.
  assert (Hf : In o (filter (matches s) O)) by (apply filter_In; auto).
  destruct (filter (matches s) O) as [|o' l]; [contradiction|].
  apply (in_map (fun o => (Some s, Some o)) (o' :: l) o Hf).
Qed.

Lemma left_part_inv O s x y :
  In (x, y) (left_part O s) ->
  x = Some s /\ (y = None \/ exists o, y = Some o /\ In o O /\ matches s o = true).
Proof.
  unfold left_part; intro H.
  destruct (filter (matches s) O) as [|o' l] eqn:E.
  - destruct H as [H|[]]; inversion H; subst; auto.
  - apply in_map_iff in H; destruct H as (o & Heq & Hin); inversion Heq; subst.
    rewrite <- E in Hin; apply filter_In in Hin.
    split; [reflexivity|right; exists o; tauto].
Qed.

Lemma merge_outer_inv S O x y :
  In (x, y) (merge_outer S O) ->
  (exists s, x = Some s /\ In s S /\
     (y = None \/ exists o, y = Some o /\ In o O /\ matches s o = true)) \/
  (x = None /\ exists o, y = Some o /\ In o O /\ existsb (fun s => matches s o) S = false).
Proof.
  rewrite merge_outer_unfold; intro H; apply in_app_iff in H; destruct H as [H|H].
  - apply in_flat_map in H; destruct H as (s & Hs & H).
    apply left_part_inv in H; destruct H as [Hx Hy]; left; exists s; auto.
  - apply in_map_iff in H; destruct H as (o & Heq & Hin); inversion Heq; subst.
    unfold unmatched in Hin; apply filter_In in Hin; destruct Hin as [Hin Hn].
    apply negb_true_iff in Hn; right; split; [reflexivity|exists o; auto].
Qed.

Lemma merge_outer_covers_left S O s :
  In s S -> exists o, In (Some s, o) (merge_outer S O).
Proof.
  intro Hs; rewrite merge_outer_unfold.
  unfold left_part; destruct (filter (matches s) O) as [|o l] eqn:E.
  - exists None; apply in_app_iff; left; apply in_flat_map; exists s; split; [exact Hs|].
    unfold left_part; rewrite E; left; reflexivity.
  - exists (Some o); apply in_app_iff; left; apply in_flat_map; exists s; split; [exact Hs|].
    unfold left_part; rewrite E; left; reflexivity.
Qed.

Lemma merge_outer_pairs S O s o :
  In s S -> In o O -> matches s o = true -> In (Some s, Some o) (merge_outer S O).
Proof.
  intros Hs Ho Hm; rewrite merge_outer_unfold; apply in_app_iff; left.
  apply in_flat_map; exists s; split; [exact Hs|apply left_part_pair; assumption].
Qed.

Lemma merge_outer_covers_right S O o :
  In o O -> exists s, In (s, Some o) (merge_outer S O).
Proof.
  intro Ho; destruct (existsb (fun s => matches s o) S) eqn:E.
  - apply existsb_exists in E; destruct E as (s & Hs & Hm).
    exists (Some s); apply merge_outer_pairs; assumption.
  - exists None; rewrite merge_outer_unfold; apply in_app_iff; right.
    apply (in_map (fun o => (None, Some o))); unfold unmatched; apply filter_In.
    rewrite E; auto.
Qed.

Lemma matches_key s o : matches s o = true -> shopify_key s = odoo_key o.
Proof.
  unfold matches, key_eqb; intro H; apply andb_true_iff in H; destruct H as [H1 H2].
  apply opt_string_eqb_true in H1; apply opt_string_eqb_true in H2.
  destruct (shopify_key s), (odoo_key o); simpl in *; congruence.
Qed.

Local Open Scope nat_scope.

Lemma length_flat_map {A B} (f : A -> list B) (l : list A) :
  length (flat_map f l) = list_sum (map (fun x => length (f x)) l).
Proof.
  induction l as [|x l IH]; simpl; [reflexivity|].
  rewrite length_app, IH; reflexivity.
Qed.

Lemma length_left_part O s :
  length (left_part O s) = Nat.max 1 (length (filter (matches s) O)).
Proof.
  unfold left_part; destruct (filter (matches s) O) as [|o l]; simpl; [reflexivity|].
  rewrite length_map; lia.
Qed.

Lemma length_merge_outer S O : length (merge_outer S O) = outer_join_size S O.
Proof.
  rewrite merge_outer_unfold, length_app, length_flat_map, length_map.
  unfold outer_join_size; f_equal; f_equal; apply map_ext; intro s.
  apply length_left_part.
Qed.

Lemma length_filter_split {A} (f : A -> bool) (l : list A) :
  length (filter f l) + length (filter (fun x => negb (f x)) l) = length l.
Proof.
  induction l as [|x l IH]; simpl; [reflexivity|].
  destruct (f x); simpl; lia.
Qed.

Lemma list_sum_map_add {A} (f g : A -> nat) (l : list A) :
  list_sum (map (fun x => f x + g x) l) = list_sum (map f l) + list_sum (map g l).
Proof. induction l as [|x l IH]; simpl; [reflexivity|]; rewrite IH; lia. Qed.

Lemma list_sum_map_le {A} (f g : A -> nat) (l : list A) :
  (forall x, f x <= g x) -> list_sum (map f l) <= list_sum (map g l).
Proof. intro H; induction l as [|x l IH]; simpl; [lia|]; specialize (H x); lia. Qed.

Lemma list_sum_map_bound {A} (f : A -> nat) (k : nat) (l : list A) :
  (forall x, f x <= k) -> list_sum (map f l) <= length l * k.
Proof. intro H; induction l as [|x l IH]; simpl; [lia|]; specialize (H x); lia. Qed.

Lemma list_sum_map_ge1 {A} (f : A -> nat) (l : list A) :
  (forall x, 1 <= f x) -> length l <= list_sum (map f l).
Proof. intro H; induction l as [|x l IH]; simpl; [lia|]; specialize (H x); lia. Qed.

Lemma existsb_indicator {A} (f : A -> bool) (l : list A) :
  existsb f l = true -> 1 <= list_sum (map (fun x => if f x then 1 else 0) l).
Proof.
  induction l as [|x l IH]; simpl; [discriminate|].
  destruct (f x); simpl; [lia|]; intro H; specialize (IH H); lia.
Qed.

Lemma matched_le_pairs S O :
  length (filter (fun o => existsb (fun s => matches s o) S) O)
  <= list_sum (map (fun s => length (filter (matches s) O)) S).
Proof.
  induction O as [|o O IH]; simpl.
  - induction S; simpl; lia.
  - rewrite (map_ext (fun s => length (if matches s o then o :: filter (matches s) O
                                        else filter (matches s) O))
             (fun s => (if matches s o then 1 else 0) + length (filter (matches s) O)));
      [| intro s; destruct (matches s o); simpl; lia].
    rewrite list_sum_map_add.
    destruct (existsb (fun s => matches s o) S) eqn:E; simpl.
    + apply existsb_indicator in E; lia.
    + lia.
Qed.

Lemma length_distinct_aux {R} (eqb : R -> R -> bool) (seen l : list R) :
  length (distinct_aux eqb seen l) <= length seen + length l.
Proof.
  revert seen; induction l as [|y l IH]; intro seen; simpl.
  - rewrite length_rev; lia.
  - destruct (existsb (fun x => eqb x y) seen).
    + specialize (IH seen); lia.
    + specialize (IH (y :: seen)); simpl in IH; lia.
Qed.

Lemma length_distinct {R} (eqb : R -> R -> bool) (l : list R) :
  length (distinct eqb l) <= length l.
Proof. apply (length_distinct_aux eqb [] l). Qed.

Lemma merge_outer_length_bounds S O :
  Nat.max (length S) (length O) <= length (merge_outer S O) /\
  length (merge_outer S O) <= length S * length O + length S + length O.
Proof.
  rewrite length_merge_outer; unfold outer_join_size, unmatched.
  pose proof (matched_le_pairs S O) as Hm.
  pose proof (length_filter_split (fun o => existsb (fun s => matches s o) S) O) as Hsplit.
  pose proof (list_sum_map_le (fun s => length (filter (matches s) O))
                (fun s => Nat.max 1 (length (filter (matches s) O))) S
                ltac:(intro; cbv beta; lia)) as Hle.
  pose proof (list_sum_map_ge1 (fun s => Nat.max 1 (length (filter (matches s) O))) S
                ltac:(intro; cbv beta; lia)) as Hge.
  pose proof (list_sum_map_bound (fun s => Nat.max 1 (length (filter (matches s) O)))
                (1 + length O) S
                ltac:(intro s; cbv beta; pose proof (filter_length_le (matches s) O); lia)) as Hub.
  pose proof (filter_length_le (fun o => negb (existsb (fun s => matches s o) S)) O) as Hu.
  cbv beta in Hsplit.
  split; [lia|nia].
Qed.

(** ** Claims *)

(** C1: [get_sync_status] gives every row exactly one status, checking in
    order: not in Shopify, not in Odoo, quantity mismatch, price mismatch,
    and Synced otherwise; every row of [compare_orders] carries that status
    of its own flags. *)
Theorem get_sync_status_priority (ins ino qm pm : bool) :
  (get_sync_status ins ino qm pm = MissingInShopify <-> ins = false) /\
  (get_sync_status ins ino qm pm = MissingInOdoo <-> ins = true /\ ino = false) /\
  (get_sync_status ins ino qm pm = QuantityMismatch <->
     ins = true /\ ino = true /\ qm = false) /\
  (get_sync_status ins ino qm pm = PriceMismatch <->
     ins = true /\ ino = true /\ qm = true /\ pm = false) /\
  (get_sync_status ins ino qm pm = Synced <->
     ins = true /\ ino = true /\ qm = true /\ pm = true) /\
  (forall S O r, In r (comparison_rows S O) ->
     sync_status r = get_sync_status (in_shopify r) (in_odoo r)
                                     (quantity_match r) (price_match r)).
Proof.
  split; [|split; [|split; [|split; [|split]]]];
    [destruct ins, ino, qm, pm; simpl; split; intro H; try discriminate; repeat split; repeat (match goal with Hc : _ /\ _ |- _ => destruct Hc end); try discriminate; reflexivity ..|].
  intros S O r Hr; unfold comparison_rows in Hr; apply in_map_iff in Hr.
  destruct Hr as ([x y] & <- & _); reflexivity.
Qed.

(** C2: after [pd.to_numeric(errors='coerce')], [quantity_match] holds
    exactly when both quantities are present and equal or both are null,
    and [price_match] exactly when both prices are null or both present
    with [abs(a - b) < 0.01]; one null side against a number never
    matches; an unparsable cell becomes null and [compare_orders] never
    raises. *)
Theorem field_comparator_null_safe :
  (forall a b, quantity_match_of a b = true <->
     (exists x y, a = Some x /\ b = Some y /\ x == y) \/ (a = None /\ b = None)) /\
  (forall a b, price_match_of a b = true <->
     (a = None /\ b = None) \/
     (exists x y, a = Some x /\ b = Some y /\ (Qabs (x - y) < 1 # 100)%Q)) /\
  (forall x, (~ x == 0)%Q ->
     quantity_match_of (Some x) None = false /\ quantity_match_of None (Some x) = false /\
     price_match_of (Some x) None = false /\ price_match_of None (Some x) = false) /\
  (forall p s, p s = None -> to_numeric p Coerce (VText s) = inr None) /\
  (forall p S O, exists rows, compare_orders p S O = inr rows /\
     forall r, In r rows ->
       quantity_match r = quantity_match_of (side_quantity_s (row_shopify r))
                                            (side_quantity_o (row_odoo r)) /\
       price_match r = price_match_of (side_price_s (row_shopify r))
                                      (side_price_o (row_odoo r))).
Proof.
  split; [exact quantity_match_of_spec|].
  split; [exact price_match_of_spec|].
  split; [intros x _; repeat split; reflexivity|].
  split; [intros p s Hp; simpl; rewrite Hp; reflexivity|].
  intros p S O; destruct (compare_orders_ok p S O) as (S' & O' & H).
  exists (comparison_rows S' O'); split; [exact H|].
  intros r Hr; unfold comparison_rows in Hr; apply in_map_iff in Hr.
  destruct Hr as ([x y] & <- & _); split; reflexivity.
Qed.

(** C3: [merge_outer] is a full outer join on the lower-cased keys: every
    line of either side is in some row, every key of either side has a row,
    every pair of lines with equal keys is a row and paired lines have
    equal keys; the row count is at least the number of lines (hence of
    distinct keys) of each side and is exactly [outer_join_size], at most
    |S| * |O| + |S| + |O|. *)
Theorem merge_outer_full_outer_join (S : list SLine) (O : list OLine) :
  (forall s, In s S -> exists o, In (Some s, o) (merge_outer S O)) /\
  (forall o, In o O -> exists s, In (s, Some o) (merge_outer S O)) /\
  (forall k, In k (map shopify_key S) \/ In k (map odoo_key O) ->
     exists x y, In (x, y) (merge_outer S O) /\
       (option_map shopify_key x = Some k \/ option_map odoo_key y = Some k)) /\
  (forall s o, In s S -> In o O -> matches s o = true ->
     In (Some s, Some o) (merge_outer S O)) /\
  (forall s o, In (Some s, Some o) (merge_outer S O) -> shopify_key s = odoo_key o) /\
  Nat.max (length S) (length O) <= length (merge_outer S O) /\
  Nat.max (length (distinct key_eqb (map shopify_key S)))
          (length (distinct key_eqb (map odoo_key O))) <= length (merge_outer S O) /\
  length (merge_outer S O) = outer_join_size S O /\
  length (merge_outer S O) <= length S * length O + length S + length O.
Proof.
  destruct (merge_outer_length_bounds S O) as [Hlo Hhi].
  split; [intros s; apply merge_outer_covers_left|].
  split; [intros o; apply merge_outer_covers_right|].
  split.
  { intros k [Hk|Hk]; apply in_map_iff in Hk; destruct Hk as (z & <- & Hz).
    - destruct (merge_outer_covers_left S O z Hz) as [o Ho].
      exists (Some z), o; split; [exact Ho|left; reflexivity].
    - destruct (merge_outer_covers_right S O z Hz) as [s Hs].
      exists s, (Some z); split; [exact Hs|right; reflexivity]. }
  split; [intros s o; apply merge_outer_pairs|].
  split.
  { intros s o H; apply merge_outer_inv in H.
    destruct H as [(s' & Hs' & _ & [Hy|(o' & Ho' & _ & Hm)])|(Hx & _)]; try discriminate.
    inversion Hs'; inversion Ho'; subst; apply matches_key; exact Hm. }
  split; [exact Hlo|].
  split.
  { pose proof (length_distinct key_eqb (map shopify_key S)).
    pose proof (length_distinct key_eqb (map odoo_key O)).
    rewrite length_map in *; lia. }
  split; [apply length_merge_outer|exact Hhi].
Qed.

(** C4 (counterexample): with Shopify line #1001 / ABC and Odoo line
    1001 / abc (quantity 2, price 10 on both sides) the merge keys differ,
    since only lower-casing is applied, and the comparison gives two rows,
    Missing in Odoo and Missing in Shopify, instead of one Synced row. *)
Lemma scenario_A_not_matched :
  shopify_key {| s_order_number := Some "#1001"; s_sku := Some "ABC";
                 s_quantity := Some 2%Q; s_price := Some 10%Q |}
  <> odoo_key {| o_order_number := Some "1001"; o_sku := Some "abc";
                 o_quantity := Some 2%Q; o_price := Some 10%Q |} /\
  match compare_orders (fun _ => None)
          [{| shopify_order_number := Some "#1001"; shopify_sku := Some "ABC";
              shopify_quantity := VNum 2; shopify_price := VNum 10 |}]
          [{| odoo_shopify_order_number := Some "1001"; odoo_sku := Some "abc";
              odoo_quantity := VNum 2; odoo_price := VNum 10 |}] with
  | inr rows => map sync_status rows
  | inl _ => []
  end = [MissingInOdoo; MissingInShopify].
Proof. split; [vm_compute; discriminate|vm_compute; reflexivity]. Qed.

(** C4 (amended): the join key is the lower-cased order number and SKU,
    nothing else is normalised: against Odoo order 1001 the Shopify line
    #1001 / ABC is reported Missing in Odoo and the Odoo line Missing in
    Shopify, while against Odoo order #1001 / abc the two lines form one
    Synced row. *)
Theorem scenario_A_lowercase_only :
  match compare_orders (fun _ => None)
          [{| shopify_order_number := Some "#1001"; shopify_sku := Some "ABC";
              shopify_quantity := VNum 2; shopify_price := VNum 10 |}]
          [{| odoo_shopify_order_number := Some "1001"; odoo_sku := Some "abc";
              odoo_quantity := VNum 2; odoo_price := VNum 10 |}] with
  | inr rows => map sync_status rows
  | inl _ => []
  end = [MissingInOdoo; MissingInShopify] /\
  match compare_orders (fun _ => None)
          [{| shopify_order_number := Some "#1001"; shopify_sku := Some "ABC";
              shopify_quantity := VNum 2; shopify_price := VNum 10 |}]
          [{| odoo_shopify_order_number := Some "#1001"; odoo_sku := Some "abc";
              odoo_quantity := VNum 2; odoo_price := VNum 10 |}] with
  | inr rows => map sync_status rows
  | inl _ => []
  end = [Synced].
Proof. split; vm_compute; reflexivity. Qed.

(** C10 (counterexample): an Odoo line with a null order number forms a
    row that is not in Odoo, yet its status is Missing in Shopify, not
    Missing in Odoo. *)
Lemma null_odoo_order_missing_in_shopify :
  map (fun r => (in_odoo r, sync_status r))
      (comparison_rows []
         [{| o_order_number := None; o_sku := Some "abc";
             o_quantity := Some 1%Q; o_price := Some 5%Q |}])
  = [(false, MissingInShopify)].
Proof. vm_compute; reflexivity. Qed.

(** C10 (amended): [in_shopify] and [in_odoo] are the non-nullness of
    each side's order number; a row holding a Shopify line with a null
    order number is not in Shopify and is Missing in Shopify; a row holding
    an Odoo line with a null order number is not in Odoo and is also Missing
    in Shopify (its Shopify side, if any, has a null order number too). *)
Theorem presence_from_order_number (S : list SLine) (O : list OLine) :
  (forall r, In r (comparison_rows S O) ->
     in_shopify r = negb (isna (side_order_number_s (row_shopify r))) /\
     in_odoo r = negb (isna (side_order_number_o (row_odoo r)))) /\
  (forall s r, In r (comparison_rows S O) -> row_shopify r = Some s ->
     s_order_number s = None ->
     in_shopify r = false /\ sync_status r = MissingInShopify) /\
  (forall o r, In r (comparison_rows S O) -> row_odoo r = Some o ->
     o_order_number o = None ->
     in_odoo r = false /\ sync_status r = MissingInShopify).
Proof.
  split; [|split].
  - intros r Hr; unfold comparison_rows in Hr; apply in_map_iff in Hr.
    destruct Hr as ([x y] & <- & _); split; reflexivity.
  - intros s r Hr Hs Hn; unfold comparison_rows in Hr; apply in_map_iff in Hr.
    destruct Hr as ([x y] & <- & _); simpl in Hs; subst x.
    simpl; rewrite Hn; split; reflexivity.
  - intros o r Hr Ho Hn; unfold comparison_rows in Hr; apply in_map_iff in Hr.
    destruct Hr as ([x y] & <- & Hin); simpl in Ho; subst y.
    apply merge_outer_inv in Hin.
    assert (Hx : isna (side_order_number_s x) = true).
    { destruct Hin as [(s & -> & _ & [Hy|(o' & Ho' & _ & Hm)])|(-> & _)];
        [discriminate| |reflexivity].
      inversion Ho'; subst o'.
      apply matches_key in Hm; unfold shopify_key, odoo_key in Hm.
      rewrite Hn in Hm; simpl in Hm; inversion Hm as [[H1 H2]].
      simpl; destruct (s_order_number s); [discriminate|reflexivity]. }
    simpl; rewrite Hn, Hx; split; reflexivity.
Qed.

End CompareOrdersFacts.

(** * Properties of the legacy join *)

Module LegacyLookupFacts.
Import LegacyLookup.

Lemma sql_eq_some (raw : string) (k : option string) :
  sql_eq (Some raw) k = true <-> k = Some raw.
Proof.
  destruct k as [x|]; unfold sql_eq; split; intro H; try discriminate.
  - apply String.eqb_eq in H; subst; reflexivity.
  - inversion H; apply String.eqb_refl.
Qed.

Lemma sql_eq_none (k : option string) : sql_eq None k = false.
Proof. reflexivity. Qed.

(** With unique [legacy_sku] values, at most one row matches a SKU. *)
Lemma filter_key_unique (L : list LegacyRow) (raw : string) :
  NoDup (map legacy_sku L) ->
  filter (fun r => sql_eq (Some raw) (legacy_sku r)) L = [] \/
  exists r, In r L /\ legacy_sku r = Some raw /\
            filter (fun r => sql_eq (Some raw) (legacy_sku r)) L = [r].
Proof.
  induction L as [|r0 L IH]; intro Hnd; simpl; [left; reflexivity|].
  inversion Hnd as [|k ks Hnin Hnd']; subst.
  destruct (sql_eq (Some raw) (legacy_sku r0)) eqn:E.
  - apply sql_eq_some in E; right; exists r0; split; [left; reflexivity|split; [exact E|]].
    f_equal; destruct (filter (fun r => sql_eq (Some raw) (legacy_sku r)) L) as [|r1 l] eqn:F;
      [reflexivity|].
    exfalso; assert (Hr1 : In r1 (filter (fun r => sql_eq (Some raw) (legacy_sku r)) L))
      by (rewrite F; left; reflexivity).
    apply filter_In in Hr1; destruct Hr1 as [Hin Hk]; apply sql_eq_some in Hk.
    apply Hnin; rewrite E, <- Hk; apply in_map; exact Hin.
  - destruct (IH Hnd') as [H|(r & Hin & Hk & H)]; [left; exact H|].
    right; exists r; split; [right; exact Hin|split; [exact Hk|exact H]].
Qed.

Lemma in_unique_filter (L : list LegacyRow) (raw : string) (r : LegacyRow) :
  NoDup (map legacy_sku L) -> In r L -> legacy_sku r = Some raw ->
  filter (fun r => sql_eq (Some raw) (legacy_sku r)) L = [r].
Proof.
  intros Hnd Hin Hk; destruct (filter_key_unique L raw Hnd) as [H|(r' & _ & _ & H)].
  - exfalso; assert (Hf : In r (filter (fun r => sql_eq (Some raw) (legacy_sku r)) L))
      by (apply filter_In; split; [exact Hin|apply sql_eq_some; exact Hk]).
    rewrite H in Hf; exact Hf.
  - assert (Hf : In r (filter (fun r => sql_eq (Some raw) (legacy_sku r)) L))
      by (apply filter_In; split; [exact Hin|apply sql_eq_some; exact Hk]).
    rewrite H in Hf; destruct Hf as [<-|[]]; exact H.
Qed.

Lemma resolve_sku_unmapped (L : list LegacyRow) (raw : string) :
  NoDup (map legacy_sku L) ->
  (forall r, In r L -> legacy_sku r = Some raw -> base_sku r = None) ->
  resolve_sku L (Some raw) = [Some raw].
Proof.
  intros Hnd Hnone; unfold resolve_sku.
  destruct (filter_key_unique L raw Hnd) as [H|(r & Hin & Hk & H)]; rewrite H;
    [reflexivity|].
  simpl; rewrite (Hnone r Hin Hk); reflexivity.
Qed.

Lemma resolve_sku_mapped (L : list LegacyRow) (raw base : string) :
  NoDup (map legacy_sku L) ->
  In {| legacy_sku := Some raw; base_sku := Some base |} L ->
  resolve_sku L (Some raw) = [Some (base ++ "-01G")].
Proof.
  intros Hnd Hin; unfold resolve_sku.
  rewrite (in_unique_filter L raw _ Hnd Hin eq_refl); reflexivity.
Qed.

(** C5: with [legacy_lookup] a map (no two rows share a [legacy_sku]), a
    SKU the map sends to [base] becomes [base || '-01G'], a SKU with no
    entry (no row, or a row with a NULL [base_sku]) and a NULL SKU pass
    through unchanged; every line keeps at least one output row. *)
Theorem legacy_resolution (L : list LegacyRow) (raw base : string) :
  NoDup (map legacy_sku L) ->
  (In {| legacy_sku := Some raw; base_sku := Some base |} L ->
     resolve_sku L (Some raw) = [Some (base ++ "-01G")]) /\
  ((forall r, In r L -> legacy_sku r = Some raw -> base_sku r = None) ->
     resolve_sku L (Some raw) = [Some raw]) /\
  resolve_sku L None = [None] /\
  (forall sku, 1 <= length (resolve_sku L sku))%nat.
Proof.
  intro Hnd; split; [apply resolve_sku_mapped; exact Hnd|].
  split; [apply resolve_sku_unmapped; exact Hnd|].
  split; [unfold resolve_sku; rewrite (filter_ext _ (fun _ => false)); [|intro; reflexivity];
          rewrite filter_false; reflexivity|].
  intro sku; unfold resolve_sku.
  destruct (filter (fun r => sql_eq sku (legacy_sku r)) L); simpl; [lia|].
  rewrite length_map; lia.
Qed.

Lemma legacy_resolution_witness :
  NoDup (map legacy_sku [{| legacy_sku := Some "OLD-01"; base_sku := Some "NEW" |};
                         {| legacy_sku := Some "X-01"; base_sku := None |}]) /\
  resolve_sku [{| legacy_sku := Some "OLD-01"; base_sku := Some "NEW" |};
               {| legacy_sku := Some "X-01"; base_sku := None |}] (Some "OLD-01")
  = [Some ("NEW" ++ "-01G")].
Proof.
  assert (Hnd : NoDup (map legacy_sku [{| legacy_sku := Some "OLD-01"; base_sku := Some "NEW" |};
                         {| legacy_sku := Some "X-01"; base_sku := None |}])).
  { simpl; constructor; [simpl; intros [H|[]]; discriminate|].
    constructor; [intros []|constructor]. }
  split; [exact Hnd|].
  apply (proj1 (legacy_resolution _ "OLD-01" "NEW" Hnd)); left; reflexivity.
Defined.

(** C6 (counterexample): a map keyed on OLD leaves the Shopify SKU OLD-01
    unchanged, and [compare_orders], which applies no legacy resolution,
    reports the Shopify line OLD-01 Missing in Odoo next to the Odoo line
    NEW-01G of the same order. *)
Lemma scenario_B_not_matched :
  resolve_sku [{| legacy_sku := Some "OLD"; base_sku := Some "NEW" |}] (Some "OLD-01")
  = [Some "OLD-01"] /\
  match CompareOrders.compare_orders (fun _ => None)
          [{| CompareOrders.shopify_order_number := Some "#1001";
              CompareOrders.shopify_sku := Some "OLD-01";
              CompareOrders.shopify_quantity := CompareOrders.VNum 1;
              CompareOrders.shopify_price := CompareOrders.VNum 10 |}]
          [{| CompareOrders.odoo_shopify_order_number := Some "#1001";
              CompareOrders.odoo_sku := Some "NEW-01G";
              CompareOrders.odoo_quantity := CompareOrders.VNum 1;
              CompareOrders.odoo_price := CompareOrders.VNum 10 |}] with
  | inr rows => map CompareOrders.sync_status rows
  | inl _ => []
  end = [CompareOrders.MissingInOdoo; CompareOrders.MissingInShopify].
Proof. split; vm_compute; reflexivity. Qed.

(** C6 (amended): the legacy lookup matches the whole Shopify SKU; with
    OLD-01 mapped to NEW the report table [shopify_orders_basesku] carries
    NEW-01G, the Odoo SKU, while a map keyed on OLD leaves OLD-01 as it is. *)
Theorem scenario_B_exact_sku_lookup :
  create_shopify_orders_basesku
    [{| legacy_sku := Some "OLD-01"; base_sku := Some "NEW" |}]
    [{| Name := Some "#1001"; Lineitem_sku := Some "OLD-01" |}]
  = [(Some "#1001", Some "NEW-01G")] /\
  create_shopify_orders_basesku
    [{| legacy_sku := Some "OLD"; base_sku := Some "NEW" |}]
    [{| Name := Some "#1001"; Lineitem_sku := Some "OLD-01" |}]
  = [(Some "#1001", Some "OLD-01")].
Proof. split; vm_compute; reflexivity. Qed.

(** C9 (counterexample): resolving twice differs from resolving once when
    a resolved SKU is itself a legacy SKU: A resolves to B-01G, which
    resolves to C-01G. *)
Lemma legacy_resolution_not_idempotent :
  resolve_sku [{| legacy_sku := Some "A"; base_sku := Some "B" |};
               {| legacy_sku := Some "B-01G"; base_sku := Some "C" |}] (Some "A")
  = [Some "B-01G"] /\
  flat_map (resolve_sku [{| legacy_sku := Some "A"; base_sku := Some "B" |};
                         {| legacy_sku := Some "B-01G"; base_sku := Some "C" |}])
    (resolve_sku [{| legacy_sku := Some "A"; base_sku := Some "B" |};
                  {| legacy_sku := Some "B-01G"; base_sku := Some "C" |}] (Some "A"))
  = [Some "C-01G"].
Proof. split; vm_compute; reflexivity. Qed.

Lemma filter_all_false {A} (f : A -> bool) (l : list A) :
  (forall x, In x l -> f x = false) -> filter f l = [].
Proof.
  induction l as [|x l IH]; intro H; simpl; [reflexivity|].
  rewrite (H x (or_introl eq_refl)); apply IH; intros y Hy; apply H; right; exact Hy.
Qed.

(** C9 (amended): a SKU with no entry is returned unchanged, whatever the
    map; and when the map has unique keys and no resolved SKU
    [base || '-01G'] is itself a legacy SKU, resolving the result again
    changes nothing. *)
Theorem legacy_resolution_idempotent (L : list LegacyRow) :
  (forall raw, (forall r, In r L -> legacy_sku r <> Some raw) ->
     resolve_sku L (Some raw) = [Some raw]) /\
  (NoDup (map legacy_sku L) ->
   (forall r r' b, In r L -> In r' L -> base_sku r = Some b ->
      legacy_sku r' <> Some (b ++ "-01G")) ->
   forall sku, flat_map (resolve_sku L) (resolve_sku L sku) = resolve_sku L sku).
Proof.
  split.
  { intros raw Hno; unfold resolve_sku.
    rewrite filter_all_false; [reflexivity|].
    intros r Hin; destruct (sql_eq (Some raw) (legacy_sku r)) eqn:E; [|reflexivity].
    apply sql_eq_some in E; exfalso; exact (Hno r Hin E). }
  intros Hnd Hfresh.
  assert (Hself : forall raw, resolve_sku L (Some raw) = [Some raw] ->
                    flat_map (resolve_sku L) (resolve_sku L (Some raw))
                    = resolve_sku L (Some raw)).
  { intros raw H; rewrite H; simpl; rewrite H; reflexivity. }
  intros [raw|].
  - destruct (filter_key_unique L raw Hnd) as [H|(r & Hin & Hk & H)].
    + apply Hself; unfold resolve_sku; rewrite H; reflexivity.
    + destruct (base_sku r) as [b|] eqn:Hb.
      * assert (E : resolve_sku L (Some raw) = [Some (b ++ "-01G")])
          by (unfold resolve_sku; rewrite H; simpl; rewrite Hb; reflexivity).
        rewrite E; simpl.
        assert (E2 : resolve_sku L (Some (b ++ "-01G")) = [Some (b ++ "-01G")]).
        { apply resolve_sku_unmapped; [exact Hnd|].
          intros r' Hin' Hk'; exfalso; exact (Hfresh r r' b Hin Hin' Hb Hk'). }
        rewrite E2; reflexivity.
      * apply Hself; unfold resolve_sku; rewrite H; simpl; rewrite Hb; reflexivity.
  - unfold resolve_sku; rewrite (filter_ext _ (fun _ => false)); [|intro; reflexivity].
    rewrite filter_false; simpl.
    rewrite (filter_ext _ (fun _ => false)); [|intro; reflexivity].
    rewrite filter_false; reflexivity.
Qed.

Lemma legacy_resolution_idempotent_witness :
  flat_map (resolve_sku [{| legacy_sku := Some "A"; base_sku := Some "B" |}])
    (resolve_sku [{| legacy_sku := Some "A"; base_sku := Some "B" |}] (Some "A"))
  = resolve_sku [{| legacy_sku := Some "A"; base_sku := Some "B" |}] (Some "A").
Proof.
  apply (proj2 (legacy_resolution_idempotent
                  [{| legacy_sku := Some "A"; base_sku := Some "B" |}])
                  ltac:(constructor; [intros []|constructor])
                  ltac:(intros r r' b [<-|[]] [<-|[]] Hb; simpl in *;
                        inversion Hb; subst; discriminate)).
Defined.

End LegacyLookupFacts.

(** * Properties of the size mismatch heuristic *)

Module StockCrossRefFacts.
Import StockCrossRef.

Section Distinct.
Context {R : Type} (eqb : R -> R -> bool).

Lemma distinct_aux_keeps_seen (seen l : list R) (y : R) :
  In y seen -> In y (distinct_aux eqb seen l).
Proof.
  revert seen; induction l as [|z l IH]; intros seen Hy; simpl.
  - apply in_rev in Hy; exact Hy.
  - destruct (existsb (fun x => eqb x z) seen); apply IH; [exact Hy|right; exact Hy].
Qed.

Lemma distinct_aux_sound (seen l : list R) (x : R) :
  In x (distinct_aux eqb seen l) -> In x seen \/ In x l.
Proof.
  revert seen; induction l as [|z l IH]; intros seen Hx; simpl in Hx.
  - left; apply in_rev; exact Hx.
  - destruct (existsb (fun x => eqb x z) seen).
    + destruct (IH seen Hx) as [H|H]; [left; exact H|right; right; exact H].
    + destruct (IH (z :: seen) Hx) as [[H|H]|H].
      * right; left; exact H.
      * left; exact H.
      * right; right; exact H.
Qed.

Hypothesis eqb_refl : forall x, eqb x x = true.

Lemma distinct_aux_complete (seen l : list R) (y : R) :
  In y l -> exists x, In x (distinct_aux eqb seen l) /\ eqb x y = true.
Proof.
  revert seen; induction l as [|z l IH]; intros seen Hy; [destruct Hy|].
  destruct Hy as [<-|Hy].
  - simpl; destruct (existsb (fun x => eqb x z) seen) eqn:E.
    + apply existsb_exists in E; destruct E as (x & Hx & Hxy).
      exists x; split; [apply distinct_aux_keeps_seen; exact Hx|exact Hxy].
    + exists z; split; [apply distinct_aux_keeps_seen; left; reflexivity|apply eqb_refl].
  - simpl; destruct (existsb (fun x => eqb x z) seen); apply IH; exact Hy.
Qed.

Lemma distinct_complete (l : list R) (y : R) :
  In y l -> exists x, In x (distinct eqb l) /\ eqb x y = true.
Proof. apply distinct_aux_complete. Qed.

End Distinct.

Lemma distinct_sound {R} (eqb : R -> R -> bool) (l : list R) (x : R) :
  In x (distinct eqb l) -> In x l.
Proof.
  intro H; destruct (distinct_aux_sound eqb [] l x H) as [[]|H']; exact H'.
Qed.

Lemma opt_string_eqb_refl (a : option string) : opt_string_eqb a a = true.
Proof. destruct a; simpl; [apply String.eqb_refl|reflexivity]. Qed.

Lemma psm_row_eqb_refl (r : PSMRow) : psm_row_eqb r r = true.
Proof.
  unfold psm_row_eqb; rewrite !String.eqb_refl, !opt_string_eqb_refl.
  assert (Hq : Qeq_bool (odoo_qty r) (odoo_qty r) = true) by (apply Qeq_bool_iff; reflexivity).
  rewrite Hq; simpl.
  destruct (shopify_qty r) as [q|]; simpl; [|reflexivity].
  assert (Hq2 : Qeq_bool q q = true) by (apply Qeq_bool_iff; reflexivity).
  rewrite Hq2; reflexivity.
Qed.

Lemma psm_row_eqb_keys (r r' : PSMRow) :
  psm_row_eqb r r' = true ->
  odoo_sku r = odoo_sku r' /\ correct_shopify_sku r = correct_shopify_sku r'.
Proof.
  unfold psm_row_eqb; intro H; repeat rewrite andb_true_iff in H.
  destruct H as ((((((H1 & _) & _) & H4) & _) & _) & _).
  apply String.eqb_eq in H1; apply CompareOrdersFacts.opt_string_eqb_true in H4; auto.
Qed.

Lemma plant_prefixes_sound (O : list OdooStock) (pp : string) :
  In pp (plant_prefixes O) -> pp <> EmptyString.
Proof.
  unfold plant_prefixes; intro H; apply distinct_sound in H.
  apply filter_In in H; destruct H as [_ H]; intro E; subst; discriminate.
Qed.

Lemma plant_prefixes_complete (O : list OdooStock) (o : OdooStock) :
  In o O -> plant_prefix o <> EmptyString -> In (plant_prefix o) (plant_prefixes O).
Proof.
  intros Ho Hne; unfold plant_prefixes.
  destruct (distinct_complete String.eqb String.eqb_refl
              (filter (fun x => negb (String.eqb x EmptyString)) (map plant_prefix O))
              (plant_prefix o)) as (x & Hx & E).
  - apply filter_In; split; [apply in_map; exact Ho|].
    apply negb_true_iff; apply String.eqb_neq; exact Hne.
  - apply String.eqb_eq in E; subst; exact Hx.
Qed.

Lemma s1_condition_sound S o s1 :
  In s1 (s1_rows S o) ->
  match s1_quantity s1 with None => true | Some x => Qeq_bool x 0 end = true ->
  (forall p, In p S -> sku p <> Some (default_code o)) \/
  (exists p, In p S /\ sku p = Some (default_code o) /\
     (inventory_quantity p = None \/
      exists x, inventory_quantity p = Some x /\ (x == 0)%Q)).
Proof.
  unfold s1_rows; intros Hs1 Hq.
  destruct (filter (fun s1 => sql_eq (Some (default_code o)) (sku s1)) S) as [|p0 l] eqn:F.
  - left; intros p Hp Hk.
    assert (Hf : In p (filter (fun s1 => sql_eq (Some (default_code o)) (sku s1)) S)).
    { apply filter_In; split; [exact Hp|]; rewrite Hk.
      apply LegacyLookupFacts.sql_eq_some; reflexivity. }
    rewrite F in Hf; exact Hf.
  - right; rewrite <- F in Hs1; apply in_map_iff in Hs1; destruct Hs1 as (p & <- & Hp).
    apply filter_In in Hp; destruct Hp as [Hp Hk].
    apply LegacyLookupFacts.sql_eq_some in Hk.
    exists p; split; [exact Hp|split; [exact Hk|]].
    simpl in Hq; destruct (inventory_quantity p) as [x|]; [right|left; reflexivity].
    exists x; split; [reflexivity|apply Qeq_bool_iff; exact Hq].
Qed.

Lemma filter_none {A} (f : A -> bool) (l : list A) :
  (forall x, In x l -> f x = false) -> filter f l = [].
Proof.
  induction l as [|x l IH]; intro H; simpl; [reflexivity|].
  rewrite (H x (or_introl eq_refl)); apply IH; intros y Hy; apply H; right; exact Hy.
Qed.

Lemma s1_condition_complete S o :
  ((forall p, In p S -> sku p <> Some (default_code o)) \/
   (exists p, In p S /\ sku p = Some (default_code o) /\
      (inventory_quantity p = None \/
       exists x, inventory_quantity p = Some x /\ (x == 0)%Q))) ->
  exists s1, In s1 (s1_rows S o) /\
    match s1_quantity s1 with None => true | Some x => Qeq_bool x 0 end = true.
Proof.
  unfold s1_rows; intros [Hnone|(p & Hp & Hk & Hq)].
  - rewrite filter_none.
    + exists None; split; [left; reflexivity|reflexivity].
    + intros p Hp; destruct (sql_eq (Some (default_code o)) (sku p)) eqn:E; [|reflexivity].
      apply LegacyLookupFacts.sql_eq_some in E; exfalso; exact (Hnone p Hp E).
  - assert (Hf : In p (filter (fun s1 => sql_eq (Some (default_code o)) (sku s1)) S)).
    { apply filter_In; split; [exact Hp|]; rewrite Hk.
      apply LegacyLookupFacts.sql_eq_some; reflexivity. }
    exists (Some p); split.
    + destruct (filter (fun s1 => sql_eq (Some (default_code o)) (sku s1)) S) as [|p0 l];
        [destruct Hf|].
      apply (in_map Some (p0 :: l) p Hf).
    + simpl; destruct Hq as [-> | (x & -> & Hx)]; [reflexivity|].
      apply Qeq_bool_iff; exact Hx.
Qed.

Lemma psm_sound (O : list OdooStock) (S : list ShopifyProduct) (r : PSMRow) :
  In r (potential_size_mismatches O S) ->
  exists o s2, In o O /\ In s2 S /\ size_mismatch_condition S o s2 /\
               r = psm_select o s2.
Proof.
  intro H; apply distinct_sound in H.
  apply in_flat_map in H; destruct H as (o & Ho & H).
  apply in_flat_map in H; destruct H as (pp & Hpp & H).
  destruct (String.eqb (plant_prefix o) pp) eqn:Epp; [|destruct H].
  apply String.eqb_eq in Epp.
  apply in_flat_map in H; destruct H as (s1 & Hs1 & H).
  apply in_flat_map in H; destruct H as (s2 & Hs2 & H).
  destruct (s2_on o s2 && psm_where o (s1_quantity s1) (inventory_quantity s2)) eqn:C;
    [|destruct H].
  destruct H as [<-|[]].
  apply andb_true_iff in C; destruct C as [Con Cw].
  unfold psm_where in Cw; apply andb_true_iff in Cw; destruct Cw as [Cw Cs2].
  apply andb_true_iff in Cw; destruct Cw as [Cq Cs1].
  exists o, s2; split; [exact Ho|split; [exact Hs2|split; [|reflexivity]]].
  split; [rewrite Epp; apply (plant_prefixes_sound O pp Hpp)|].
  split; [apply CompareOrdersFacts.Qltb_iff; exact Cq|].
  split; [apply (s1_condition_sound S o s1 Hs1 Cs1)|].
  unfold s2_on in Con; destruct (sku s2) as [t|]; [|discriminate].
  apply andb_true_iff in Con; destruct Con as [Hlike Hne].
  destruct (inventory_quantity s2) as [y|]; [|discriminate].
  apply andb_true_iff in Cs2; destruct Cs2 as [Hy Hab].
  exists t, y; split; [reflexivity|split; [exact Hlike|split]].
  - apply negb_true_iff, String.eqb_neq in Hne; exact Hne.
  - split; [reflexivity|split].
    + apply CompareOrdersFacts.Qltb_iff; exact Hy.
    + apply Qle_bool_iff; exact Hab.
Qed.

Lemma psm_complete (O : list OdooStock) (S : list ShopifyProduct) o s2 :
  In o O -> In s2 S -> size_mismatch_condition S o s2 ->
  exists r, In r (potential_size_mismatches O S) /\
            odoo_sku r = default_code o /\ correct_shopify_sku r = sku s2.
Proof.
  intros Ho Hs2 (Hpp & Hq & Hs1 & (t & y & Ht & Hlike & Hne & Hy & Hy0 & Hab)).
  destruct (s1_condition_complete S o Hs1) as (s1 & Hs1in & Hs1q).
  unfold potential_size_mismatches.
  match goal with
  | |- exists r, In r (distinct _ ?L) /\ _ => assert (Hin : In (psm_select o s2) L)
  end.
  - apply in_flat_map; exists o; split; [exact Ho|].
    apply in_flat_map; exists (plant_prefix o); split;
      [apply plant_prefixes_complete; assumption|].
    rewrite String.eqb_refl.
    apply in_flat_map; exists s1; split; [exact Hs1in|].
    apply in_flat_map; exists s2; split; [exact Hs2|].
    assert (C : s2_on o s2 && psm_where o (s1_quantity s1) (inventory_quantity s2) = true).
    { unfold s2_on, psm_where; rewrite Ht, Hy, Hlike, Hs1q.
      apply String.eqb_neq in Hne; rewrite Hne.
      apply CompareOrdersFacts.Qltb_iff in Hq; apply CompareOrdersFacts.Qltb_iff in Hy0.
      apply Qle_bool_iff in Hab; rewrite Hq, Hy0, Hab; reflexivity. }
    rewrite C; left; reflexivity.
  - destruct (distinct_complete psm_row_eqb psm_row_eqb_refl _ _ Hin) as (r & Hr & E).
    apply psm_row_eqb_keys in E; exists r; split; [exact Hr|exact E].
Qed.

Lemma left_join_In {B} (on : B -> bool) (bs : list B) (y : option B) :
  In y (left_join on bs) -> y = None \/ exists b, y = Some b /\ In b bs /\ on b = true.
Proof.
  unfold left_join; destruct (filter on bs) as [|b0 l] eqn:F; intro H.
  - destruct H as [<-|[]]; left; reflexivity.
  - rewrite <- F in H; apply in_map_iff in H; destruct H as (b & <- & Hb).
    apply filter_In in Hb; right; exists b; tauto.
Qed.

Lemma left_join_exists {B} (on : B -> bool) (bs : list B) (P : option B -> Prop) :
  P None -> (forall b, In b bs -> on b = true -> P (Some b)) ->
  exists y, In y (left_join on bs) /\ P y.
Proof.
  intros HN HS; unfold left_join.
  assert (Hf : forall b, In b (filter on bs) -> P (Some b))
    by (intros b Hb; apply filter_In in Hb; apply HS; tauto).
  destruct (filter on bs) as [|b0 l].
  - exists None; split; [left; reflexivity|exact HN].
  - exists (Some b0); split; [left; reflexivity|apply Hf; left; reflexivity].
Qed.

Lemma stock_cross_reference_In A CS C psm x :
  In x (stock_cross_reference A CS C psm) ->
  exists a cs c r, In a A /\ report_where a cs = true /\
    (cs = None \/ exists cs', cs = Some cs' /\ In cs' CS /\ cs_sku cs' = Some (ts_default_code a)) /\
    (r = None \/ exists r', r = Some r' /\ In r' psm /\ odoo_sku r' = ts_default_code a) /\
    x = cross_ref_row a cs c r.
Proof.
  unfold stock_cross_reference; intro H.
  apply in_flat_map in H; destruct H as (a & Ha & H).
  apply in_flat_map in H; destruct H as (cs & Hcs & H).
  destruct (report_where a cs) eqn:W; [|destruct H].
  apply in_flat_map in H; destruct H as (c & _ & H).
  apply in_map_iff in H; destruct H as (r & <- & Hr).
  exists a, cs, c, r; split; [exact Ha|split; [exact W|split; [|split; [|reflexivity]]]].
  - destruct (left_join_In _ _ _ Hcs) as [->|(cs' & -> & Hin & Hon)]; [left; reflexivity|right].
    exists cs'; split; [reflexivity|split; [exact Hin|]].
    apply LegacyLookupFacts.sql_eq_some; exact Hon.
  - destruct (left_join_In _ _ _ Hr) as [->|(r' & -> & Hin & Hon)]; [left; reflexivity|right].
    exists r'; split; [reflexivity|split; [exact Hin|]].
    apply String.eqb_eq in Hon; symmetry; exact Hon.
Qed.

Lemma report_where_nonzero a cs : report_where a cs = true -> ~ (ODOO_QTY a == 0)%Q.
Proof.
  unfold report_where; rewrite andb_true_iff; intros [_ H] E.
  apply Qeq_bool_iff in E; rewrite E in H; discriminate.
Qed.

Lemma stock_cross_reference_covers A CS C psm a :
  In a A -> ~ (ODOO_QTY a == 0)%Q ->
  (forall cs, In cs CS -> cs_sku cs = Some (ts_default_code a) ->
     cs_status cs = None \/ cs_status cs = Some "active") ->
  exists x, In x (stock_cross_reference A CS C psm) /\
    xr_product_id x = product_id a /\ xr_location_id x = location_id a /\
    ODOO_ONHAND_QTY x = ODOO_QTY a /\ xr_ODOO_AVAILABLE_QTY x = ODOO_AVAILABLE_QTY a.
Proof.
  intros Ha Hq Hst.
  assert (Hnz : negb (Qeq_bool (ODOO_QTY a) 0) = true).
  { destruct (Qeq_bool (ODOO_QTY a) 0) eqn:E; [|reflexivity].
    apply Qeq_bool_iff in E; contradiction. }
  destruct (left_join_exists (fun cs => sql_eq (Some (ts_default_code a)) (cs_sku cs)) CS
              (fun cs => report_where a cs = true)) as (cs & Hcs & W).
  { unfold report_where; cbn [cs_status_of]; rewrite Hnz; reflexivity. }
  { intros c Hc Hon; apply LegacyLookupFacts.sql_eq_some in Hon.
    unfold report_where; cbn [cs_status_of].
    destruct (Hst c Hc Hon) as [-> | ->]; rewrite Hnz; reflexivity. }
  destruct (left_join_exists (fun c => String.eqb (product_id a) (lc_product_id c)) C
              (fun _ => True)) as (c & Hc & _); [exact I|intros; exact I|].
  destruct (left_join_exists (fun r => String.eqb (ts_default_code a) (odoo_sku r)) psm
              (fun _ => True)) as (r & Hr & _); [exact I|intros; exact I|].
  exists (cross_ref_row a cs c r); split; [|repeat split].
  unfold stock_cross_reference; apply in_flat_map; exists a; split; [exact Ha|].
  apply in_flat_map; exists cs; split; [exact Hcs|]; rewrite W.
  apply in_flat_map; exists c; split; [exact Hc|]; apply in_map; exact Hr.
Qed.

(** C7 (counterexample): Odoo holds P-1 (3) and P-2 (4), Shopify P-1 (0)
    and P-2 (3).  Odoo's P-2 is not zero, so the reciprocal half fails, yet
    the pair (P-1, P-2) is flagged. *)
Lemma no_reciprocal_half_needed :
  map (fun r => (odoo_sku r, correct_shopify_sku r))
    (potential_size_mismatches
       [{| default_code := "P-1"; quantity := 3 |}; {| default_code := "P-2"; quantity := 4 |}]
       [{| sku := Some "P-1"; option1 := Some "1"; inventory_quantity := Some 0%Q |};
        {| sku := Some "P-2"; option1 := Some "2"; inventory_quantity := Some 3%Q |}])
  = [("P-1", Some "P-2")].
Proof. vm_compute; reflexivity. Qed.

(** C7 (amended): the detector flags Odoo item [o] with Shopify sibling
    [s2] exactly under [size_mismatch_condition] (Shopify quantity of [o]
    zero or null, Odoo quantity of [o] positive, [s2] positive and within 5
    of it); whatever Odoo holds for the sibling's own SKU, the flag stands. *)
Theorem size_mismatch_one_sided (O : list OdooStock) (S : list ShopifyProduct)
    (o : OdooStock) (s2 : ShopifyProduct) (t : string) (qB : Q) :
  sku s2 = Some t -> size_mismatch_condition S o s2 -> In s2 S ->
  (exists r, In r (potential_size_mismatches
                     (o :: {| default_code := t; quantity := qB |} :: O) S) /\
             odoo_sku r = default_code o /\ correct_shopify_sku r = sku s2) /\
  (forall r, In r (potential_size_mismatches O S) ->
     exists o' s2', In o' O /\ In s2' S /\ size_mismatch_condition S o' s2' /\
       odoo_sku r = default_code o' /\ correct_shopify_sku r = sku s2').
Proof.
  intros _ Hc Hs2; split.
  - apply psm_complete; [left; reflexivity|exact Hs2|exact Hc].
  - intros r Hr; destruct (psm_sound O S r Hr) as (o' & s2' & Ho' & Hs2' & Hc' & ->).
    exists o', s2'; split; [exact Ho'|split; [exact Hs2'|split; [exact Hc'|split; reflexivity]]].
Qed.

Lemma size_mismatch_one_sided_witness :
  exists r, In r (potential_size_mismatches
                    [{| default_code := "P-1"; quantity := 3 |};
                     {| default_code := "P-2"; quantity := 4 |}]
                    [{| sku := Some "P-1"; option1 := Some "1"; inventory_quantity := Some 0%Q |};
                     {| sku := Some "P-2"; option1 := Some "2"; inventory_quantity := Some 3%Q |}])
            /\ odoo_sku r = "P-1" /\ correct_shopify_sku r = Some "P-2".
Proof.
  refine (proj1 (size_mismatch_one_sided []
            [{| sku := Some "P-1"; option1 := Some "1"; inventory_quantity := Some 0%Q |};
             {| sku := Some "P-2"; option1 := Some "2"; inventory_quantity := Some 3%Q |}]
            {| default_code := "P-1"; quantity := 3 |}
            {| sku := Some "P-2"; option1 := Some "2"; inventory_quantity := Some 3%Q |}
            "P-2" 4 eq_refl _ _)).
  - split; [vm_compute; discriminate|].
    split; [reflexivity|].
    split.
    + right; exists {| sku := Some "P-1"; option1 := Some "1"; inventory_quantity := Some 0%Q |}.
      split; [left; reflexivity|split; [reflexivity|right; exists 0%Q; split; reflexivity]].
    + exists "P-2", 3%Q; split; [reflexivity|split; [vm_compute; reflexivity|]].
      split; [discriminate|split; [reflexivity|split; vm_compute; try reflexivity; intro; discriminate]].
  - right; left; reflexivity.
Defined.

(** C8 (counterexample): Odoo P-1 at -2, Shopify P-1 at 0 and sibling
    P-2 at -1: both quantities are non-zero and 1 apart, yet no note is
    produced, as the query requires them positive. *)
Lemma negative_quantities_not_flagged :
  potential_size_mismatches
    [{| default_code := "P-1"; quantity := (-2)%Q |}]
    [{| sku := Some "P-1"; option1 := Some "1"; inventory_quantity := Some 0%Q |};
     {| sku := Some "P-2"; option1 := Some "2"; inventory_quantity := Some (-1)%Q |}]
  = [].
Proof. vm_compute; reflexivity. Qed.

(** C8 (amended): a [potential_size_mismatches] row for Odoo item [o] and
    Shopify sibling [s2] exists exactly when [size_mismatch_condition]
    holds: non-empty plant prefix, Odoo quantity positive, Shopify quantity
    of [o] zero or null (or no Shopify product), [s2]'s SKU LIKE
    prefix-% and different from [o]'s, [s2]'s quantity positive and within
    5 of [o]'s.  In [stock_cross_reference] it is only an annotation: each
    report row takes its product, location and Odoo quantities from an
    [odoo_total_stock] row (with a non-zero ODOO_QTY), its Shopify
    quantities from the [combined_shopify] row of its code (or NULL), and
    its three mismatch columns from a [potential_size_mismatches] row of
    its code (or NULL); every [odoo_total_stock] row the WHERE clause
    admits has a report row. *)
Theorem size_mismatch_note_condition (O : list OdooStock) (S : list ShopifyProduct) :
  (forall r, In r (potential_size_mismatches O S) ->
     exists o s2, In o O /\ In s2 S /\ size_mismatch_condition S o s2 /\
       odoo_sku r = default_code o /\ correct_shopify_sku r = sku s2 /\
       odoo_qty r = quantity o /\ shopify_qty r = inventory_quantity s2) /\
  (forall o s2, In o O -> In s2 S -> size_mismatch_condition S o s2 ->
     exists r, In r (potential_size_mismatches O S) /\
       odoo_sku r = default_code o /\ correct_shopify_sku r = sku s2) /\
  (forall A CS C x, In x (stock_cross_reference A CS C (potential_size_mismatches O S)) ->
     exists a, In a A /\ ~ (ODOO_QTY a == 0)%Q /\
       xr_product_id x = product_id a /\ xr_location_id x = location_id a /\
       ODOO_ONHAND_QTY x = ODOO_QTY a /\ xr_ODOO_AVAILABLE_QTY x = ODOO_AVAILABLE_QTY a /\
       ((SHOPIFY_ONHAND_QTY x = None /\ SHOPIFY_AVAILABLE_QTY x = None) \/
        exists cs, In cs CS /\ cs_sku cs = Some (ts_default_code a) /\
          SHOPIFY_ONHAND_QTY x = Some (cs_on_hand cs) /\
          SHOPIFY_AVAILABLE_QTY x = Some (cs_available cs)) /\
       ((Potential_Correct_SKU x = None /\ Potential_Correct_Size x = None /\
         Size_Mismatch_Note x = None) \/
        exists r, In r (potential_size_mismatches O S) /\ odoo_sku r = ts_default_code a /\
          Potential_Correct_SKU x = correct_shopify_sku r /\
          Potential_Correct_Size x = correct_size r /\ Size_Mismatch_Note x = mismatch_note r)) /\
  (forall A CS C a, In a A -> ~ (ODOO_QTY a == 0)%Q ->
     (forall cs, In cs CS -> cs_sku cs = Some (ts_default_code a) ->
        cs_status cs = None \/ cs_status cs = Some "active") ->
     exists x, In x (stock_cross_reference A CS C (potential_size_mismatches O S)) /\
       xr_product_id x = product_id a /\ xr_location_id x = location_id a /\
       ODOO_ONHAND_QTY x = ODOO_QTY a /\ xr_ODOO_AVAILABLE_QTY x = ODOO_AVAILABLE_QTY a).
Proof.
  split; [|split; [|split]].
  - intros r Hr; destruct (psm_sound O S r Hr) as (o & s2 & Ho & Hs2 & Hc & ->).
    exists o, s2; split; [exact Ho|split; [exact Hs2|split; [exact Hc|repeat split]]].
  - intros o s2; apply psm_complete.
  - intros A CS C x Hx.
    destruct (stock_cross_reference_In _ _ _ _ _ Hx) as (a & cs & c & r & Ha & W & Hcs & Hr & ->).
    exists a; split; [exact Ha|split; [exact (report_where_nonzero a cs W)|]].
    split; [reflexivity|split; [reflexivity|split; [reflexivity|split; [reflexivity|split]]]].
    + destruct Hcs as [->|(cs' & -> & Hin & Hk)]; [left; split; reflexivity|right].
      exists cs'; split; [exact Hin|split; [exact Hk|split; reflexivity]].
    + destruct Hr as [->|(r' & -> & Hin & Hk)]; [left; repeat split|right].
      exists r'; split; [exact Hin|split; [exact Hk|repeat split]].
  - intros A CS C a; apply stock_cross_reference_covers.
Qed.

Lemma size_mismatch_note_condition_witness :
  exists r, In r (potential_size_mismatches
                    [{| default_code := "P-1"; quantity := 3 |}]
                    [{| sku := Some "P-1"; option1 := Some "1"; inventory_quantity := None |};
                     {| sku := Some "P-2"; option1 := Some "2"; inventory_quantity := Some 5%Q |}])
            /\ odoo_sku r = "P-1" /\ correct_shopify_sku r = Some "P-2".
Proof.
  refine (proj1 (proj2 (size_mismatch_note_condition
            [{| default_code := "P-1"; quantity := 3 |}]
            [{| sku := Some "P-1"; option1 := Some "1"; inventory_quantity := None |};
             {| sku := Some "P-2"; option1 := Some "2"; inventory_quantity := Some 5%Q |}]))
            {| default_code := "P-1"; quantity := 3 |}
            {| sku := Some "P-2"; option1 := Some "2"; inventory_quantity := Some 5%Q |}
            (or_introl eq_refl) (or_intror (or_introl eq_refl)) _).
  split; [vm_compute; discriminate|].
  split; [vm_compute; reflexivity|].
  split.
  - right; exists {| sku := Some "P-1"; option1 := Some "1"; inventory_quantity := None |}.
    split; [left; reflexivity|split; [reflexivity|left; reflexivity]].
  - exists "P-2", 5%Q; split; [reflexivity|split; [vm_compute; reflexivity|]].
    split; [discriminate|split; [reflexivity|split; vm_compute; try reflexivity; intro; discriminate]].
Defined.

End StockCrossRefFacts.

(** * Properties of the status counts and the sync report *)

Module SyncReportFacts.
Import CompareOrders SyncReport.

Lemma sync_status_label_eqb (st st' : SyncStatus) :
  String.eqb (sync_status_label st) (sync_status_label st') = true <-> st = st'.
Proof. destruct st, st'; cbv; split; intro H; try reflexivity; discriminate. Qed.

Lemma rows_with_status_In (rows : list MergedRow) (st : SyncStatus) (r : MergedRow) :
  In r (rows_with_status rows (sync_status_label st)) <-> In r rows /\ sync_status r = st.
Proof. unfold rows_with_status; rewrite filter_In, sync_status_label_eqb; reflexivity. Qed.

Lemma mismatches_In (rows : list MergedRow) (r : MergedRow) :
  In r (mismatches rows) <->
  In r rows /\ (sync_status r = QuantityMismatch \/ sync_status r = PriceMismatch).
Proof.
  unfold mismatches; rewrite filter_In, orb_true_iff.
  change "Quantity mismatch" with (sync_status_label QuantityMismatch).
  change "Price mismatch" with (sync_status_label PriceMismatch).
  rewrite !sync_status_label_eqb; reflexivity.
Qed.

Lemma comparison_rows_In S O r :
  In r (comparison_rows S O) <-> exists p, In p (merge_outer S O) /\ r = build_row p.
Proof.
  unfold comparison_rows; rewrite in_map_iff; split;
    intros (p & H1 & H2); exists p; split; auto.
Qed.

Lemma get_sync_status_missing_in_shopify a b c d :
  get_sync_status a b c d = MissingInShopify <-> a = false.
Proof. destruct a, b, c, d; cbv; split; intro H; try reflexivity; discriminate. Qed.

Lemma get_sync_status_missing_in_odoo a b c d :
  get_sync_status a b c d = MissingInOdoo <-> a = true /\ b = false.
Proof.
  destruct a, b, c, d; cbv; split; intro H;
    try (split; reflexivity); try discriminate; destruct H; discriminate.
Qed.

Lemma get_sync_status_mismatch a b c d :
  get_sync_status a b c d = QuantityMismatch \/ get_sync_status a b c d = PriceMismatch <->
  a = true /\ b = true /\ (c = false \/ d = false).
Proof.
  destruct a, b, c, d; cbv; split; intro H;
    repeat match goal with
           | H : _ /\ _ |- _ => destruct H
           | H : _ \/ _ |- _ => destruct H
           end;
    try discriminate;
    try (left; reflexivity); try (right; reflexivity);
    try (split; [reflexivity|split; [reflexivity|]]; (left; reflexivity) || (right; reflexivity)).
Qed.

Lemma merge_outer_left_alone S O s :
  In (Some s, None) (merge_outer S O) <-> In s S /\ filter (matches s) O = [].
Proof.
  rewrite CompareOrdersFacts.merge_outer_unfold, in_app_iff; split.
  - intros [H|H].
    + apply in_flat_map in H; destruct H as (s0 & Hs0 & H).
      unfold left_part in H; destruct (filter (matches s0) O) as [|o l] eqn:F.
      * destruct H as [H|[]]; inversion H; subst; split; assumption.
      * apply in_map_iff in H; destruct H as (o' & H & _); discriminate.
    + apply in_map_iff in H; destruct H as (o & H & _); discriminate.
  - intros [Hs F]; left; apply in_flat_map; exists s; split; [exact Hs|].
    unfold left_part; rewrite F; left; reflexivity.
Qed.

Lemma merge_outer_right_alone S O o :
  In (None, Some o) (merge_outer S O) <->
  In o O /\ existsb (fun s => matches s o) S = false.
Proof.
  split.
  - intro H; apply CompareOrdersFacts.merge_outer_inv in H.
    destruct H as [(s & H & _)|(_ & o' & Ho & Hin & Hn)]; [discriminate|].
    inversion Ho; subst; split; assumption.
  - intros [Ho Hn]; rewrite CompareOrdersFacts.merge_outer_unfold; apply in_app_iff; right.
    apply (in_map (fun o => (None, Some o))); unfold unmatched; apply filter_In.
    rewrite Hn; split; [exact Ho|reflexivity].
Qed.

Lemma matches_isna s o :
  matches s o = true -> isna (s_order_number s) = isna (o_order_number o).
Proof.
  intro H; apply CompareOrdersFacts.matches_key in H; unfold shopify_key, odoo_key in H.
  injection H as H1 _; unfold str_lower in H1.
  destruct (s_order_number s), (o_order_number o); simpl in *; congruence.
Qed.

Lemma build_row_status (x : option SLine) (y : option OLine) :
  sync_status (build_row (x, y)) =
  get_sync_status (negb (isna (side_order_number_s x))) (negb (isna (side_order_number_o y)))
    (quantity_match_of (side_quantity_s x) (side_quantity_o y))
    (price_match_of (side_price_s x) (side_price_o y)).
Proof. reflexivity. Qed.

(** The five counts printed by [compare_orders] add up to the total. *)
Theorem status_counts_partition (rows : list MergedRow) :
  fst (status_counts rows) = list_sum (snd (status_counts rows)).
Proof.
  unfold status_counts, rows_with_status; simpl.
  induction rows as [|r rows IH]; simpl; [reflexivity|].
  destruct (sync_status r); simpl; lia.
Qed.

Lemma missing_in_odoo_left_part (O : list OLine) (s : SLine) :
  map row_shopify (missing_in_odoo (map build_row (left_part O s))) =
  if negb (isna (s_order_number s)) && (length (filter (matches s) O) =? 0)%nat
  then [Some s] else [].
Proof.
  unfold missing_in_odoo, rows_with_status, left_part.
  pose proof (fun o => proj1 (filter_In (matches s) o O)) as Hm.
  destruct (filter (matches s) O) as [|o0 os].
  - simpl; destruct (s_order_number s); reflexivity.
  - change ((length (o0 :: os) =? 0)%nat) with false; rewrite andb_false_r.
    rewrite StockCrossRefFacts.filter_none; [reflexivity|].
    intros r Hr; rewrite map_map, in_map_iff in Hr; destruct Hr as (o & <- & Ho).
    specialize (Hm o Ho); destruct Hm as [_ Hm]; apply matches_isna in Hm.
    change "Missing in Odoo" with (sync_status_label MissingInOdoo).
    destruct (String.eqb (sync_status_label (sync_status (build_row (Some s, Some o))))
                (sync_status_label MissingInOdoo)) eqn:E; [|reflexivity].
    apply sync_status_label_eqb in E.
    rewrite build_row_status, get_sync_status_missing_in_odoo in E; simpl in E.
    rewrite Hm in E; destruct E as [E1 E2]; rewrite E1 in E2; discriminate.
Qed.

Lemma missing_in_odoo_right_part (S : list SLine) (O : list OLine) :
  missing_in_odoo (map build_row (map (fun o => (None, Some o)) (unmatched S O))) = [].
Proof.
  apply StockCrossRefFacts.filter_none; intros r Hr.
  rewrite map_map, in_map_iff in Hr; destruct Hr as (o & <- & _); reflexivity.
Qed.

Lemma missing_in_odoo_shopify_lines (S : list SLine) (O : list OLine) :
  map row_shopify (missing_in_odoo (comparison_rows S O)) =
  map Some (filter (fun s => negb (isna (s_order_number s))
                             && (length (filter (matches s) O) =? 0)%nat) S).
Proof.
  unfold comparison_rows; rewrite CompareOrdersFacts.merge_outer_unfold, map_app.
  unfold missing_in_odoo, rows_with_status; rewrite filter_app.
  fold (missing_in_odoo (map build_row (map (fun o => (None, Some o)) (unmatched S O)))).
  rewrite missing_in_odoo_right_part, app_nil_r.
  induction S as [|s S IH]; [reflexivity|].
  cbn [flat_map]; rewrite map_app, filter_app, map_app.
  fold (missing_in_odoo (map build_row (left_part O s))).
  rewrite missing_in_odoo_left_part, IH; simpl.
  destruct (negb (isna (s_order_number s)) && (length (filter (matches s) O) =? 0)%nat);
    reflexivity.
Qed.

Theorem missing_in_odoo_rows (S : list SLine) (O : list OLine) :
  (forall r, In r (missing_in_odoo (comparison_rows S O)) ->
     exists s, In s S /\ s_order_number s <> None /\ filter (matches s) O = [] /\
               row_shopify r = Some s /\ row_odoo r = None) /\
  (forall s, In s S -> s_order_number s <> None -> filter (matches s) O = [] ->
     exists r, In r (missing_in_odoo (comparison_rows S O)) /\
               row_shopify r = Some s /\ row_odoo r = None) /\
  map row_shopify (missing_in_odoo (comparison_rows S O)) =
    map Some (filter (fun s => negb (isna (s_order_number s))
                               && (length (filter (matches s) O) =? 0)%nat) S) /\
  length (missing_in_odoo (comparison_rows S O)) =
    length (filter (fun s => negb (isna (s_order_number s))
                             && (length (filter (matches s) O) =? 0)%nat) S).
Proof.
  split; [|split; [|split; [apply missing_in_odoo_shopify_lines|]]].
  - intros r Hr; apply (rows_with_status_In _ MissingInOdoo) in Hr.
    destruct Hr as [Hr Hst]; apply comparison_rows_In in Hr.
    destruct Hr as ([x y] & Hin & ->).
    rewrite build_row_status, get_sync_status_missing_in_odoo in Hst.
    destruct Hst as [Hx Hy].
    destruct x as [s|]; [|discriminate].
    destruct y as [o|].
    + exfalso; apply CompareOrdersFacts.merge_outer_inv in Hin.
      destruct Hin as [(s' & Hs' & _ & [Hy'|(o' & Ho' & _ & Hm)])|(Hx' & _)];
        try discriminate.
      inversion Hs'; inversion Ho'; subst.
      simpl in Hx, Hy; rewrite (matches_isna _ _ Hm) in Hx; congruence.
    + apply merge_outer_left_alone in Hin; destruct Hin as [Hs F].
      exists s; split; [exact Hs|split; [|split; [exact F|split; reflexivity]]].
      simpl in Hx; intro E; rewrite E in Hx; discriminate.
  - intros s Hs Hn F; exists (build_row (Some s, None)).
    split; [|split; reflexivity].
    apply (rows_with_status_In _ MissingInOdoo); split.
    + apply comparison_rows_In; exists (Some s, None); split; [|reflexivity].
      apply merge_outer_left_alone; split; assumption.
    + rewrite build_row_status, get_sync_status_missing_in_odoo; simpl.
      destruct (s_order_number s); [split; reflexivity|congruence].
  - rewrite <- (length_map row_shopify), missing_in_odoo_shopify_lines, length_map.
    reflexivity.
Qed.

Theorem mismatches_rows (S : list SLine) (O : list OLine) :
  (forall r, In r (mismatches (comparison_rows S O)) ->
     exists s o, In s S /\ In o O /\ matches s o = true /\ s_order_number s <> None /\
       row_shopify r = Some s /\ row_odoo r = Some o /\
       (quantity_match_of (s_quantity s) (o_quantity o) = false \/
        price_match_of (s_price s) (o_price o) = false)) /\
  (forall s o, In s S -> In o O -> matches s o = true -> s_order_number s <> None ->
     quantity_match_of (s_quantity s) (o_quantity o) = false \/
     price_match_of (s_price s) (o_price o) = false ->
     exists r, In r (mismatches (comparison_rows S O)) /\
       row_shopify r = Some s /\ row_odoo r = Some o).
Proof.
  split.
  - intros r Hr; apply mismatches_In in Hr.
    destruct Hr as [Hr Hst]; apply comparison_rows_In in Hr.
    destruct Hr as ([x y] & Hin & ->).
    rewrite !build_row_status in Hst; apply get_sync_status_mismatch in Hst.
    destruct Hst as (Hx & Hy & Hqp).
    destruct x as [s|]; [|discriminate].
    destruct y as [o|]; [|discriminate].
    apply CompareOrdersFacts.merge_outer_inv in Hin.
    destruct Hin as [(s' & Hs' & Hs & [Hy'|(o' & Ho' & Ho & Hm)])|(Hx' & _)];
      try discriminate.
    injection Hs' as Es; injection Ho' as Eo; subst s' o'.
    exists s, o; split; [exact Hs|split; [exact Ho|split; [exact Hm|split]]].
    + simpl in Hx; intro E; rewrite E in Hx; discriminate.
    + split; [reflexivity|split; [reflexivity|exact Hqp]].
  - intros s o Hs Ho Hm Hn Hqp; exists (build_row (Some s, Some o)).
    split; [|split; reflexivity].
    apply mismatches_In; split.
    + apply comparison_rows_In; exists (Some s, Some o); split; [|reflexivity].
      apply CompareOrdersFacts.merge_outer_pairs; assumption.
    + rewrite !build_row_status; apply get_sync_status_mismatch; simpl.
      rewrite <- (matches_isna _ _ Hm).
      destruct (s_order_number s); [|congruence].
      split; [reflexivity|split; [reflexivity|exact Hqp]].
Qed.

Theorem missing_in_shopify_rows (S : list SLine) (O : list OLine) :
  (forall r, In r (rows_with_status (comparison_rows S O) "Missing in Shopify") ->
     (exists o, In o O /\ existsb (fun s => matches s o) S = false /\
                row_shopify r = None /\ row_odoo r = Some o) \/
     (exists s, In s S /\ s_order_number s = None /\ row_shopify r = Some s)) /\
  (forall o, In o O -> existsb (fun s => matches s o) S = false ->
     exists r, In r (rows_with_status (comparison_rows S O) "Missing in Shopify") /\
               row_shopify r = None /\ row_odoo r = Some o) /\
  (forall s, In s S -> s_order_number s = None ->
     exists r, In r (rows_with_status (comparison_rows S O) "Missing in Shopify") /\
               row_shopify r = Some s).
Proof.
  split; [|split].
  - intros r Hr; apply (rows_with_status_In _ MissingInShopify) in Hr.
    destruct Hr as [Hr Hst]; apply comparison_rows_In in Hr.
    destruct Hr as ([x y] & Hin & ->).
    rewrite build_row_status, get_sync_status_missing_in_shopify in Hst.
    destruct x as [s|].
    + right; exists s.
      apply CompareOrdersFacts.merge_outer_inv in Hin.
      destruct Hin as [(s' & Hs' & Hs & _)|(Hx' & _)]; [|discriminate].
      injection Hs' as Es; subst s'; split; [exact Hs|split; [|reflexivity]].
      simpl in Hst; destruct (s_order_number s); [discriminate|reflexivity].
    + left; apply CompareOrdersFacts.merge_outer_inv in Hin.
      destruct Hin as [(s' & Hs' & _)|(_ & o & Ho & Hin & Hn)]; [discriminate|].
      subst y; exists o; split; [exact Hin|split; [exact Hn|split; reflexivity]].
  - intros o Ho Hn; exists (build_row (None, Some o)).
    split; [|split; reflexivity].
    apply (rows_with_status_In _ MissingInShopify); split.
    + apply comparison_rows_In; exists (None, Some o); split; [|reflexivity].
      apply merge_outer_right_alone; split; assumption.
    + rewrite build_row_status, get_sync_status_missing_in_shopify; reflexivity.
  - intros s Hs Hn; destruct (CompareOrdersFacts.merge_outer_covers_left S O s Hs) as (y & Hin).
    exists (build_row (Some s, y)); split; [|reflexivity].
    apply (rows_with_status_In _ MissingInShopify); split.
    + apply comparison_rows_In; exists (Some s, y); split; [exact Hin|reflexivity].
    + rewrite build_row_status, get_sync_status_missing_in_shopify; simpl; rewrite Hn; reflexivity.
Qed.

End SyncReportFacts.

(** * Properties of the [excel_report] table *)

Module ExcelReportFacts.
Import LegacyLookup ExcelReport.

Lemma sql_eq_true (a b : option string) :
  sql_eq a b = true -> exists x, a = Some x /\ b = Some x.
Proof.
  destruct a as [x|], b as [y|]; unfold sql_eq; intro H; try discriminate.
  apply String.eqb_eq in H; subst; exists y; split; reflexivity.
Qed.

Lemma excel_report_In B O r :
  In r (excel_report B O) ->
  In (report_Name r, report_SKU r) B /\
  (report_Delivery_Status r = None \/
   exists b, In b O /\ sql_eq (report_Name r) (Odoo_Name b) = true /\
     sql_eq (report_SKU r) (Product_Default_Code b) = true /\
     report_Delivery_Status r = Delivery_Status b).
Proof.
  unfold excel_report; intro H; apply in_flat_map in H; destruct H as ([n k] & Hnk & H).
  cbv beta iota in H.
  destruct (filter (fun b => sql_eq n (Odoo_Name b) && sql_eq k (Product_Default_Code b)) O)
    as [|b0 bs] eqn:F.
  - destruct H as [<-|[]]; simpl; split; [exact Hnk|left; reflexivity].
  - rewrite <- F in H; apply in_map_iff in H; destruct H as (b & <- & Hb).
    apply filter_In in Hb; destruct Hb as [Hb Hc]; apply andb_true_iff in Hc.
    simpl; split; [exact Hnk|right; exists b; tauto].
Qed.

Lemma excel_report_left B O n k :
  In (n, k) B -> exists r, In r (excel_report B O) /\ report_Name r = n /\ report_SKU r = k.
Proof.
  intro Hnk; unfold excel_report.
  destruct (filter (fun b => sql_eq n (Odoo_Name b) && sql_eq k (Product_Default_Code b)) O)
    as [|b0 bs] eqn:F.
  - exists {| report_Name := n; report_SKU := k; report_Delivery_Status := None |}.
    split; [|split; reflexivity].
    apply in_flat_map; exists (n, k); split; [exact Hnk|]; simpl; rewrite F; left; reflexivity.
  - exists {| report_Name := n; report_SKU := k; report_Delivery_Status := Delivery_Status b0 |}.
    split; [|split; reflexivity].
    apply in_flat_map; exists (n, k); split; [exact Hnk|]; simpl; rewrite F; left; reflexivity.
Qed.

Lemma excel_report_match B O n k b :
  In (Some n, Some k) B -> In b O -> Odoo_Name b = Some n -> Product_Default_Code b = Some k ->
  In {| report_Name := Some n; report_SKU := Some k; report_Delivery_Status := Delivery_Status b |}
     (excel_report B O).
Proof.
  intros Hnk Hb Hn Hk; unfold excel_report; apply in_flat_map.
  exists (Some n, Some k); split; [exact Hnk|]; cbv beta iota.
  assert (Hf : In b (filter (fun b => sql_eq (Some n) (Odoo_Name b)
                                      && sql_eq (Some k) (Product_Default_Code b)) O)).
  { apply filter_In; split; [exact Hb|]; rewrite Hn, Hk; unfold sql_eq.
    rewrite !String.eqb_refl; reflexivity. }
  destruct (filter (fun b => sql_eq (Some n) (Odoo_Name b)
                             && sql_eq (Some k) (Product_Default_Code b)) O) as [|b0 bs];
    [destruct Hf|].
  apply in_map_iff; exists b; split; [reflexivity|exact Hf].
Qed.

Lemma length_excel_report B O : (length B <= length (excel_report B O))%nat.
Proof.
  unfold excel_report; rewrite CompareOrdersFacts.length_flat_map.
  apply CompareOrdersFacts.list_sum_map_ge1; intros [n k]; simpl.
  destruct (filter (fun b => sql_eq n (Odoo_Name b) && sql_eq k (Product_Default_Code b)) O);
    simpl; [lia|rewrite length_map; lia].
Qed.

Lemma resolve_sku_has_base (L : list LegacyRow) (raw base : string) :
  In {| legacy_sku := Some raw; base_sku := Some base |} L ->
  In (Some (base ++ "-01G")) (resolve_sku L (Some raw)).
Proof.
  intro H; unfold resolve_sku; cbv zeta.
  assert (Hf : In {| legacy_sku := Some raw; base_sku := Some base |}
                  (filter (fun r => sql_eq (Some raw) (legacy_sku r)) L)).
  { apply filter_In; split; [exact H|]; unfold sql_eq; simpl; apply String.eqb_refl. }
  destruct (filter (fun r => sql_eq (Some raw) (legacy_sku r)) L) as [|r0 rs]; [destruct Hf|].
  apply in_map_iff; exists {| legacy_sku := Some raw; base_sku := Some base |}.
  split; [reflexivity|exact Hf].
Qed.

(** Every row of [shopify_orders_basesku] is in [excel_report]. *)
Theorem excel_report_keeps_rows (B : list (option string * option string))
    (O : list OdooOrderRow) :
  (forall n k, In (n, k) B ->
     exists r, In r (excel_report B O) /\ report_Name r = n /\ report_SKU r = k) /\
  (forall r, In r (excel_report B O) -> In (report_Name r, report_SKU r) B) /\
  (length B <= length (excel_report B O))%nat.
Proof.
  split; [intros n k; apply excel_report_left|].
  split; [intros r Hr; apply (proj1 (excel_report_In B O r Hr))|].
  apply length_excel_report.
Qed.

Theorem excel_report_delivery_status (B : list (option string * option string))
    (O : list OdooOrderRow) :
  (forall r d, In r (excel_report B O) -> report_Delivery_Status r = Some d ->
     exists b n k, In b O /\ report_Name r = Some n /\ report_SKU r = Some k /\
       Odoo_Name b = Some n /\ Product_Default_Code b = Some k /\ Delivery_Status b = Some d) /\
  (forall n k b, In (Some n, Some k) B -> In b O -> Odoo_Name b = Some n ->
     Product_Default_Code b = Some k ->
     In {| report_Name := Some n; report_SKU := Some k;
           report_Delivery_Status := Delivery_Status b |} (excel_report B O)).
Proof.
  split; [|intros n k b; apply excel_report_match].
  intros r d Hr Hd; destruct (excel_report_In B O r Hr) as [_ [H|(b & Hb & Hn & Hk & Hs)]].
  - rewrite H in Hd; discriminate.
  - apply sql_eq_true in Hn; destruct Hn as (n & Hn1 & Hn2).
    apply sql_eq_true in Hk; destruct Hk as (k & Hk1 & Hk2).
    exists b, n, k; repeat split; try assumption; congruence.
Qed.

(** A Shopify line whose SKU is a [legacy_lookup] key with a non-NULL
    [base_sku] reaches [excel_report] with its own [Name] and the SKU
    [base_sku || '-01G']; when [odoo_orders] has a row of that (non-NULL)
    name and that SKU, a report row carries its [Delivery_Status]. *)
Theorem legacy_sku_reaches_report (L : list LegacyRow) (A : list ShopifyOrderRow)
    (O : list OdooOrderRow) (a : ShopifyOrderRow) (raw base : string) :
  In a A -> Lineitem_sku a = Some raw ->
  In {| legacy_sku := Some raw; base_sku := Some base |} L ->
  (exists r, In r (excel_report (create_shopify_orders_basesku L A) O) /\
     report_Name r = Name a /\ report_SKU r = Some (base ++ "-01G")) /\
  (forall n b, Name a = Some n -> In b O -> Odoo_Name b = Some n ->
     Product_Default_Code b = Some (base ++ "-01G") ->
     In {| report_Name := Some n; report_SKU := Some (base ++ "-01G");
           report_Delivery_Status := Delivery_Status b |}
        (excel_report (create_shopify_orders_basesku L A) O)).
Proof.
  intros Ha Hraw HL.
  assert (Hrow : In (Name a, Some (base ++ "-01G")) (create_shopify_orders_basesku L A)).
  { unfold create_shopify_orders_basesku; apply in_flat_map; exists a; split; [exact Ha|].
    apply in_map_iff; exists (Some (base ++ "-01G")); split; [reflexivity|].
    rewrite Hraw; apply resolve_sku_has_base; exact HL. }
  split; [apply excel_report_left; exact Hrow|].
  intros n b Hn Hb Hbn Hbk; apply excel_report_match; try assumption.
  rewrite <- Hn; exact Hrow.
Qed.

Lemma legacy_sku_reaches_report_witness :
  In {| report_Name := Some "#1001"; report_SKU := Some ("NEW" ++ "-01G");
        report_Delivery_Status := Some "full" |}
     (excel_report
        (create_shopify_orders_basesku
           [{| legacy_sku := Some "OLD-01"; base_sku := Some "NEW" |}]
           [{| Name := Some "#1001"; Lineitem_sku := Some "OLD-01" |}])
        [{| Odoo_Name := Some "#1001"; Product_Default_Code := Some "NEW-01G";
            Delivery_Status := Some "full" |}]).
Proof.
  exact (proj2 (legacy_sku_reaches_report
           [{| legacy_sku := Some "OLD-01"; base_sku := Some "NEW" |}]
           [{| Name := Some "#1001"; Lineitem_sku := Some "OLD-01" |}]
           [{| Odoo_Name := Some "#1001"; Product_Default_Code := Some "NEW-01G";
               Delivery_Status := Some "full" |}]
           {| Name := Some "#1001"; Lineitem_sku := Some "OLD-01" |}
           "OLD-01" "NEW" (or_introl eq_refl) eq_refl (or_introl eq_refl))
           "#1001"
           {| Odoo_Name := Some "#1001"; Product_Default_Code := Some "NEW-01G";
              Delivery_Status := Some "full" |}
           eq_refl (or_introl eq_refl) eq_refl eq_refl).
Defined.

End ExcelReportFacts.

(** * Properties of the Odoo stock fields and totals *)

Module StockTotalsFacts.
Import StockCrossRef StockTotals.

(** ** Codes split on dashes *)

Lemma append_assoc_s (a b c : string) : ((a ++ b) ++ c) = (a ++ (b ++ c)).
Proof. induction a as [|x a IH]; simpl; [reflexivity|rewrite IH; reflexivity]. Qed.

Lemma split_dash_nonempty (s : string) : split_dash s <> [].
Proof.
  destruct s as [|c s]; simpl; [discriminate|].
  destruct (Ascii.eqb c "-"); [discriminate|].
  destruct (split_dash s); discriminate.
Qed.

Lemma join_dash_cons (c : ascii) (h : string) (t : list string) :
  join_dash (String c h :: t) = String c (join_dash (h :: t)).
Proof. destruct t; reflexivity. Qed.

Lemma join_dash_cons2 (x h : string) (t : list string) :
  join_dash (x :: h :: t) = (x ++ "-" ++ join_dash (h :: t)).
Proof. reflexivity. Qed.

Lemma join_split_dash (s : string) : join_dash (split_dash s) = s.
Proof.
  induction s as [|c s IH]; [reflexivity|]; simpl.
  pose proof (split_dash_nonempty s) as Hne.
  destruct (split_dash s) as [|h t]; [contradiction|].
  destruct (Ascii.eqb c "-") eqn:E.
  - apply Ascii.eqb_eq in E; subst c.
    rewrite join_dash_cons2, IH; reflexivity.
  - rewrite join_dash_cons, IH; reflexivity.
Qed.

Lemma split_dash_length (s : string) :
  In "-"%char (list_ascii_of_string s) <-> (1 < length (split_dash s))%nat.
Proof.
  induction s as [|c s IH]; simpl.
  - split; [intros []|intro; lia].
  - pose proof (split_dash_nonempty s) as Hne.
    destruct (split_dash s) as [|h t]; [contradiction|].
    destruct (Ascii.eqb c "-") eqn:E.
    + apply Ascii.eqb_eq in E; subst c; simpl.
      split; intro; [lia|left; reflexivity].
    + simpl in IH |- *; rewrite <- IH.
      split; [intros [H|H]; [subst c; discriminate E|exact H]|intro H; right; exact H].
Qed.

Lemma split_dash_parts (s : string) :
  Forall (fun p => ~ In "-"%char (list_ascii_of_string p)) (split_dash s).
Proof.
  induction s as [|c s IH]; simpl.
  - constructor; [intros []|constructor].
  - destruct (Ascii.eqb c "-") eqn:E.
    + constructor; [intros []|exact IH].
    + destruct (split_dash s) as [|h t].
      * constructor; [simpl; intros [H|[]]; subst c; discriminate E|constructor].
      * inversion IH as [|? ? Hh Ht]; subst.
        constructor; [|exact Ht].
        simpl; intros [H|H]; [subst c; discriminate E|exact (Hh H)].
Qed.

Lemma join_removelast (l : list string) :
  (1 < length l)%nat -> join_dash l = (join_dash (removelast l) ++ "-" ++ last l "").
Proof.
  induction l as [|x l IH]; intro H; [simpl in H; lia|].
  destruct l as [|y l]; [simpl in H; lia|].
  destruct l as [|z l]; [reflexivity|].
  rewrite join_dash_cons2, IH by (simpl; lia).
  change (removelast (x :: y :: z :: l)) with (x :: removelast (y :: z :: l)).
  change (last (x :: y :: z :: l) "") with (last (y :: z :: l) "").
  change (removelast (y :: z :: l)) with (y :: removelast (z :: l)).
  rewrite join_dash_cons2, !append_assoc_s; reflexivity.
Qed.

Lemma last_In' {A} (l : list A) (d : A) : l <> [] -> In (last l d) l.
Proof.
  induction l as [|x l IH]; intro H; [congruence|].
  destruct l as [|y l]; [left; reflexivity|].
  right; apply IH; discriminate.
Qed.

Lemma prefix_suffix_no_dash (code : string) :
  ~ In "-"%char (list_ascii_of_string code) ->
  get_plant_prefix code = "" /\ get_suffix code = "".
Proof.
  rewrite split_dash_length; intro H; unfold get_plant_prefix, get_suffix; cbv zeta.
  pose proof (split_dash_nonempty code) as Hne.
  destruct (split_dash code) as [|x [|y l]]; [contradiction| |simpl in H; lia].
  split; reflexivity.
Qed.

Lemma prefix_suffix_dash (code : string) :
  In "-"%char (list_ascii_of_string code) ->
  code = (get_plant_prefix code ++ "-" ++ get_suffix code) /\
  ~ In "-"%char (list_ascii_of_string (get_suffix code)).
Proof.
  intro H; apply split_dash_length in H.
  unfold get_plant_prefix, get_suffix; cbv zeta.
  apply Nat.ltb_lt in H as Hb; rewrite Hb; split.
  - rewrite <- (join_removelast _ H), join_split_dash; reflexivity.
  - pose proof (split_dash_parts code) as F; rewrite Forall_forall in F.
    apply F, last_In', split_dash_nonempty.
Qed.

(** ** [extract_default_code] *)

Lemma bracket_body_app (c rest : string) :
  ~ In "]"%char (list_ascii_of_string c) -> ~ In newline (list_ascii_of_string c) ->
  bracket_body (c ++ String "]" rest) = Some c.
Proof.
  induction c as [|x c IH]; intros H1 H2; [reflexivity|]; simpl.
  destruct (Ascii.eqb x "]") eqn:E1.
  { apply Ascii.eqb_eq in E1; subst x; exfalso; apply H1; left; reflexivity. }
  destruct (Ascii.eqb x newline) eqn:E2.
  { apply Ascii.eqb_eq in E2; subst x; exfalso; apply H2; left; reflexivity. }
  rewrite IH; [reflexivity| |]; intro H; [apply H1|apply H2]; right; exact H.
Qed.

Lemma search_brackets_no_open (s : string) :
  ~ In "["%char (list_ascii_of_string s) -> search_brackets s = None.
Proof.
  induction s as [|c s IH]; intro H; [reflexivity|]; simpl.
  destruct (Ascii.eqb c "[") eqn:E.
  - apply Ascii.eqb_eq in E; subst c; exfalso; apply H; left; reflexivity.
  - apply IH; intro H'; apply H; right; exact H'.
Qed.

Lemma bracket_body_chars (s b : string) (x : ascii) :
  bracket_body s = Some b -> In x (list_ascii_of_string b) -> x <> "]"%char /\ x <> newline.
Proof.
  revert b; induction s as [|c s IH]; intros b H Hx; simpl in H; [discriminate|].
  destruct (Ascii.eqb c "]") eqn:E1.
  { inversion H; subst; destruct Hx. }
  destruct (Ascii.eqb c newline) eqn:E2; [discriminate|].
  destruct (bracket_body s) as [b'|] eqn:F; simpl in H; [|discriminate].
  inversion H; subst b; destruct Hx as [Ec|Hx].
  - subst c; split; intro E; subst x; [discriminate E1|rewrite Ascii.eqb_refl in E2; discriminate E2].
  - exact (IH b' eq_refl Hx).
Qed.

Lemma search_brackets_chars (s b : string) (x : ascii) :
  search_brackets s = Some b -> In x (list_ascii_of_string b) -> x <> "]"%char /\ x <> newline.
Proof.
  induction s as [|c s IH]; intros H Hx; simpl in H; [discriminate|].
  destruct (Ascii.eqb c "[").
  - destruct (bracket_body s) as [b'|] eqn:F.
    + inversion H; subst; exact (bracket_body_chars s b x F Hx).
    + exact (IH H Hx).
  - exact (IH H Hx).
Qed.

Lemma lstrip_incl (s : string) (x : ascii) :
  In x (list_ascii_of_string (lstrip s)) -> In x (list_ascii_of_string s).
Proof.
  induction s as [|c s IH]; simpl; [tauto|].
  destruct (is_space c); [intro H; right; exact (IH H)|tauto].
Qed.

Lemma rstrip_incl (s : string) (x : ascii) :
  In x (list_ascii_of_string (rstrip s)) -> In x (list_ascii_of_string s).
Proof.
  induction s as [|c s IH]; simpl; [tauto|].
  destruct (is_space c && String.eqb (rstrip s) ""); simpl; [intros []|].
  intros [H|H]; [left; exact H|right; exact (IH H)].
Qed.

(** ** GROUP BY *)

Section Grouping.
Context {K R : Type} (keq : K -> K -> bool).

Lemma ForallOrdPairs_snoc {A} (P : A -> A -> Prop) (l : list A) (x : A) :
  ForallOrdPairs P l -> Forall (fun y => P y x) l -> ForallOrdPairs P (l ++ [x])%list.
Proof.
  induction l as [|a l IH]; simpl; intros H1 H2.
  - constructor; [constructor|constructor].
  - inversion H1 as [|? ? Ha Hl]; inversion H2 as [|? ? Hax Hx]; subst.
    constructor; [apply Forall_app; split; [exact Ha|constructor; [exact Hax|constructor]]|].
    apply IH; assumption.
Qed.

Lemma group_insert_keys (k : K) (r : R) (gs : list (K * list R)) :
  map fst (group_insert keq k r gs) = map fst gs \/
  (map fst (group_insert keq k r gs) = (map fst gs ++ [k])%list /\
   Forall (fun k' => keq k' k = false) (map fst gs)).
Proof.
  induction gs as [|[k' rs] gs IH]; simpl.
  - right; split; [reflexivity|constructor].
  - destruct (keq k' k) eqn:E; simpl; [left; reflexivity|].
    destruct IH as [IH|[IH Hall]]; rewrite IH; [left; reflexivity|].
    right; split; [reflexivity|constructor; assumption].
Qed.

Lemma group_insert_keys_incl (k0 : K) (r : R) (gs : list (K * list R)) (k : K) :
  In k (map fst gs) -> In k (map fst (group_insert keq k0 r gs)).
Proof.
  destruct (group_insert_keys k0 r gs) as [H|[H _]]; rewrite H; [tauto|].
  intro Hk; apply in_app_iff; left; exact Hk.
Qed.

Lemma group_by_keys_distinct (key : R -> K) (l : list R) :
  ForallOrdPairs (fun a b => keq a b = false) (map fst (group_by keq key l)).
Proof.
  unfold group_by.
  assert (H : forall gs, ForallOrdPairs (fun a b => keq a b = false) (map fst gs) ->
    ForallOrdPairs (fun a b => keq a b = false)
      (map fst (fold_left (fun gs r => group_insert keq (key r) r gs) l gs))).
  { induction l as [|r l IH]; intros gs Hgs; simpl; [exact Hgs|].
    apply IH; destruct (group_insert_keys (key r) r gs) as [E|[E Hall]]; rewrite E;
      [exact Hgs|apply ForallOrdPairs_snoc; assumption]. }
  apply H; constructor.
Qed.

Hypothesis keq_refl : forall a, keq a a = true.
Hypothesis keq_sym : forall a b, keq a b = true -> keq b a = true.
Hypothesis keq_trans : forall a b c, keq a b = true -> keq b c = true -> keq a c = true.

Lemma group_insert_key_cover (k0 : K) (r : R) (gs : list (K * list R)) :
  exists k, In k (map fst (group_insert keq k0 r gs)) /\ keq k k0 = true.
Proof.
  induction gs as [|[k' rs] gs IH]; simpl.
  - exists k0; split; [left; reflexivity|apply keq_refl].
  - destruct (keq k' k0) eqn:E; simpl.
    + exists k'; split; [left; reflexivity|exact E].
    + destruct IH as (k & Hk & Ek); exists k; split; [right; exact Hk|exact Ek].
Qed.

Lemma group_insert_in (k0 : K) (r : R) (gs : list (K * list R)) (k : K) (rs : list R) :
  ForallOrdPairs (fun a b => keq a b = false) (map fst gs) ->
  In (k, rs) (group_insert keq k0 r gs) ->
  (In (k, rs) gs /\ keq k k0 = false) \/
  (keq k k0 = true /\ exists rs0, In (k, rs0) gs /\ rs = (rs0 ++ [r])%list) \/
  (k = k0 /\ rs = [r] /\ Forall (fun k' => keq k' k0 = false) (map fst gs)).
Proof.
  induction gs as [|[k' rs'] gs IH]; simpl; intros Hfop Hin.
  - destruct Hin as [Hin|[]]; inversion Hin; subst.
    right; right; split; [reflexivity|split; [reflexivity|constructor]].
  - inversion Hfop as [|? ? Hall Hfop']; subst.
    rewrite Forall_forall in Hall.
    destruct (keq k' k0) eqn:E.
    + destruct Hin as [Heq|Hin].
      * inversion Heq; subst.
        right; left; split; [exact E|exists rs'; split; [left; reflexivity|reflexivity]].
      * left; split; [right; exact Hin|].
        destruct (keq k k0) eqn:Ek; [|reflexivity].
        assert (Hk : In k (map fst gs)) by (apply (in_map fst gs (k, rs)); exact Hin).
        specialize (Hall k Hk).
        rewrite (keq_trans k' k0 k E (keq_sym k k0 Ek)) in Hall; discriminate.
    + destruct Hin as [Heq|Hin].
      * inversion Heq; subst.
        left; split; [left; reflexivity|exact E].
      * destruct (IH Hfop' Hin) as [[H1 H2]|[(H1 & rs0 & H2 & H3)|(H1 & H2 & H3)]].
        -- left; split; [right; exact H1|exact H2].
        -- right; left; split; [exact H1|exists rs0; split; [right; exact H2|exact H3]].
        -- right; right; split; [exact H1|split; [exact H2|constructor; assumption]].
Qed.

Lemma group_by_snoc (key : R -> K) (l : list R) (r : R) :
  group_by keq key (l ++ [r])%list = group_insert keq (key r) r (group_by keq key l).
Proof. unfold group_by; rewrite fold_left_app; reflexivity. Qed.

Lemma group_by_inv (key : R -> K) (l : list R) :
  (forall k rs, In (k, rs) (group_by keq key l) ->
     rs = filter (fun r => keq k (key r)) l /\ rs <> []) /\
  (forall r, In r l -> exists k, In k (map fst (group_by keq key l)) /\ keq k (key r) = true).
Proof.
  induction l as [|r l IH] using rev_ind.
  - split; [intros k rs []|intros r []].
  - destruct IH as [IHa IHb].
    pose proof (group_by_keys_distinct key l) as Hfop.
    rewrite group_by_snoc; split.
    + intros k rs Hin; rewrite filter_app; simpl.
      destruct (group_insert_in (key r) r _ k rs Hfop Hin)
        as [[H1 H2]|[(H1 & rs0 & H2 & H3)|(H1 & H2 & H3)]].
      * destruct (IHa k rs H1) as [-> Hne].
        rewrite H2, app_nil_r; split; [reflexivity|exact Hne].
      * rewrite H1; destruct (IHa _ _ H2) as [-> _]; subst rs.
        split; [reflexivity|intro E; apply app_eq_nil in E; destruct E as [_ E]; discriminate].
      * subst k rs; rewrite keq_refl.
        rewrite Forall_forall in H3.
        rewrite (StockCrossRefFacts.filter_none _ l); [split; [reflexivity|discriminate]|].
        intros r' Hr'; destruct (keq (key r) (key r')) eqn:E; [|reflexivity].
        destruct (IHb r' Hr') as (k'' & Hk'' & E'').
        specialize (H3 k'' Hk'').
        rewrite (keq_trans k'' (key r') (key r) E'' (keq_sym _ _ E)) in H3; discriminate.
    + intros r' Hr'; apply in_app_iff in Hr'; destruct Hr' as [Hr'|[<-|[]]].
      * destruct (IHb r' Hr') as (k & Hk & Ek).
        exists k; split; [apply group_insert_keys_incl; exact Hk|exact Ek].
      * apply group_insert_key_cover.
Qed.

End Grouping.

Lemma string_eqb_sym_true (a b : string) : String.eqb a b = true -> String.eqb b a = true.
Proof. intro H; rewrite String.eqb_sym; exact H. Qed.

Lemma string_eqb_trans (a b c : string) :
  String.eqb a b = true -> String.eqb b c = true -> String.eqb a c = true.
Proof. rewrite !String.eqb_eq; intros -> ->; reflexivity. Qed.

Lemma string_keys_NoDup (l : list string) :
  ForallOrdPairs (fun a b => String.eqb a b = false) l -> NoDup l.
Proof.
  induction 1 as [|a l Hall _ IH]; constructor; [|exact IH].
  intro Ha; rewrite Forall_forall in Hall; specialize (Hall a Ha).
  rewrite String.eqb_refl in Hall; discriminate.
Qed.

Lemma filter_filter' {A} (f g : A -> bool) (l : list A) :
  filter f (filter g l) = filter (fun x => g x && f x) l.
Proof.
  induction l as [|x l IH]; simpl; [reflexivity|].
  destruct (g x); simpl; [destruct (f x); [rewrite IH; reflexivity|exact IH]|exact IH].
Qed.

Lemma opt_q_eqb_refl (a : option Q) : opt_q_eqb a a = true.
Proof. destruct a; simpl; [apply Qeq_bool_refl|reflexivity]. Qed.

Lemma opt_q_eqb_sym (a b : option Q) : opt_q_eqb a b = true -> opt_q_eqb b a = true.
Proof. destruct a, b; simpl; intros; try discriminate; auto using Qeq_bool_sym. Qed.

Lemma opt_q_eqb_trans (a b c : option Q) :
  opt_q_eqb a b = true -> opt_q_eqb b c = true -> opt_q_eqb a c = true.
Proof. destruct a, b, c; simpl; intros; try discriminate; eauto using Qeq_bool_trans. Qed.

Lemma group_key_eqb_spec p l d pp ss c p' l' d' pp' ss' c' :
  group_key_eqb (p, l, d, pp, ss, c) (p', l', d', pp', ss', c') = true <->
  p = p' /\ l = l' /\ d = d' /\ pp = pp' /\ ss = ss' /\ opt_q_eqb c c' = true.
Proof. unfold group_key_eqb; rewrite !andb_true_iff, !String.eqb_eq; tauto. Qed.

Lemma group_key_eqb_refl (a : GroupKey) : group_key_eqb a a = true.
Proof.
  destruct a as [[[[[p l] d] pp] ss] c]; apply group_key_eqb_spec.
  repeat split; apply opt_q_eqb_refl.
Qed.

Lemma group_key_eqb_sym (a b : GroupKey) : group_key_eqb a b = true -> group_key_eqb b a = true.
Proof.
  destruct a as [[[[[p l] d] pp] ss] c], b as [[[[[p' l'] d'] pp'] ss'] c'].
  rewrite !group_key_eqb_spec; intros (-> & -> & -> & -> & -> & H).
  repeat split; apply opt_q_eqb_sym; exact H.
Qed.

Lemma group_key_eqb_trans (a b e : GroupKey) :
  group_key_eqb a b = true -> group_key_eqb b e = true -> group_key_eqb a e = true.
Proof.
  destruct a as [[[[[p l] d] pp] ss] c], b as [[[[[p' l'] d'] pp'] ss'] c'],
           e as [[[[[p'' l''] d''] pp''] ss''] c''].
  rewrite !group_key_eqb_spec; intros (-> & -> & -> & -> & -> & H1) (-> & -> & -> & -> & -> & H2).
  repeat split; exact (opt_q_eqb_trans _ _ _ H1 H2).
Qed.

Lemma odoo_total_stock_groups SUM A B t :
  In t (odoo_total_stock SUM A B) ->
  exists rs, In (row_key t, rs) (group_by group_key_eqb joined_key (joined_sizes A B)) /\
    t_ODOO_QTY t = SUM (map (fun x => sq_quantity (fst x)) rs) /\
    t_ODOO_AVAILABLE_QTY t = SUM (map (fun x => sq_available_quantity (fst x)) rs).
Proof.
  unfold odoo_total_stock; rewrite in_map_iff.
  intros (g & <- & Hg); destruct g as [[[[[[p l] d] pp] ss] c] rs].
  exists rs; split; [exact Hg|split; reflexivity].
Qed.

Lemma joined_sizes_covers A B a :
  In a A -> exists c, In (a, c) (joined_sizes A B).
Proof.
  intro Ha; unfold joined_sizes.
  destruct (filter (fun b => sql_eq (Some (get_suffix (sq_default_code a))) (ps_name b)) B)
    as [|b bs] eqn:E.
  - exists None; apply in_flat_map; exists a; split; [exact Ha|rewrite E; left; reflexivity].
  - exists (container_capacity b); apply in_flat_map; exists a; split; [exact Ha|].
    rewrite E; left; reflexivity.
Qed.


Lemma filter_name_le1 (x : string) (B : list PlantSize) :
  NoDup (map ps_name B) ->
  (length (filter (fun b => sql_eq (Some x) (ps_name b)) B) <= 1)%nat.
Proof.
  induction B as [|b B IH]; simpl; intro H; [lia|].
  inversion H as [|? ? Hn Hd]; subst.
  destruct (sql_eq (Some x) (ps_name b)) eqn:E; [|exact (IH Hd)].
  simpl; rewrite StockCrossRefFacts.filter_none; [simpl; lia|].
  intros b' Hb'; destruct (sql_eq (Some x) (ps_name b')) eqn:E'; [|reflexivity].
  apply LegacyLookupFacts.sql_eq_some in E, E'.
  exfalso; apply Hn; rewrite E, <- E'; apply in_map; exact Hb'.
Qed.

Lemma search_brackets_skip (pre s : string) :
  ~ In "["%char (list_ascii_of_string pre) -> search_brackets (pre ++ s) = search_brackets s.
Proof.
  induction pre as [|c pre IH]; intro H; [reflexivity|]; simpl.
  destruct (Ascii.eqb c "[") eqn:E.
  - apply Ascii.eqb_eq in E; subst c; exfalso; apply H; left; reflexivity.
  - apply IH; intro H'; apply H; right; exact H'.
Qed.

(** ** Theorems *)

(** get_plant_prefix and get_suffix: a code without a dash has an empty
    prefix and an empty suffix; a code with a dash is its prefix, a dash and
    its suffix, and the suffix has no dash. *)
Theorem plant_prefix_suffix (code : string) :
  (~ In "-"%char (list_ascii_of_string code) ->
     get_plant_prefix code = "" /\ get_suffix code = "") /\
  (In "-"%char (list_ascii_of_string code) ->
     code = (get_plant_prefix code ++ "-" ++ get_suffix code) /\
     ~ In "-"%char (list_ascii_of_string (get_suffix code))).
Proof. split; [apply prefix_suffix_no_dash|apply prefix_suffix_dash]. Qed.

(** potential_size_mismatches: a flagged Odoo code has a non-empty plant
    prefix, is that prefix, a dash and the reported size (which has no
    dash), and the proposed Shopify SKU is never the Odoo code itself. *)
Theorem size_mismatch_codes_split (O : list OdooStock) (S : list ShopifyProduct) (r : PSMRow) :
  In r (potential_size_mismatches O S) ->
  get_plant_prefix (odoo_sku r) <> "" /\
  odoo_sku r = (get_plant_prefix (odoo_sku r) ++ "-" ++ odoo_size r) /\
  ~ In "-"%char (list_ascii_of_string (odoo_size r)) /\
  correct_shopify_sku r <> Some (odoo_sku r).
Proof.
  intro H; destruct (StockCrossRefFacts.psm_sound O S r H) as (o & s2 & _ & _ & Hc & ->).
  destruct Hc as (Hpp & _ & _ & (t & y & Ht & _ & Hne & _)).
  unfold psm_select, size_suffix; cbn [odoo_sku odoo_size correct_shopify_sku].
  unfold plant_prefix in Hpp.
  destruct (in_dec ascii_dec "-"%char (list_ascii_of_string (default_code o))) as [Hd|Hd].
  - destruct (prefix_suffix_dash _ Hd) as [E1 E2].
    split; [exact Hpp|split; [exact E1|split; [exact E2|]]].
    rewrite Ht; intro E; injection E as E; exact (Hne E).
  - exfalso; exact (Hpp (proj1 (prefix_suffix_no_dash _ Hd))).
Qed.

Lemma size_mismatch_codes_split_witness :
  In (psm_select {| default_code := "P-1"; quantity := 3 |}
                 {| sku := Some "P-2"; option1 := Some "2"; inventory_quantity := Some 5%Q |})
     (potential_size_mismatches
        [{| default_code := "P-1"; quantity := 3 |}]
        [{| sku := Some "P-1"; option1 := Some "1"; inventory_quantity := None |};
         {| sku := Some "P-2"; option1 := Some "2"; inventory_quantity := Some 5%Q |}]) /\
  get_plant_prefix "P-1" <> "" /\ "P-1" = (get_plant_prefix "P-1" ++ "-" ++ "1") /\
  ~ In "-"%char (list_ascii_of_string "1") /\ Some "P-2" <> Some "P-1".
Proof.
  assert (Hin : In (psm_select {| default_code := "P-1"; quantity := 3 |}
                 {| sku := Some "P-2"; option1 := Some "2"; inventory_quantity := Some 5%Q |})
     (potential_size_mismatches
        [{| default_code := "P-1"; quantity := 3 |}]
        [{| sku := Some "P-1"; option1 := Some "1"; inventory_quantity := None |};
         {| sku := Some "P-2"; option1 := Some "2"; inventory_quantity := Some 5%Q |}]))
    by (vm_compute; left; reflexivity).
  split; [exact Hin|exact (size_mismatch_codes_split _ _ _ Hin)].
Defined.

(** extract_default_code: the code is the stripped text between the first
    '[' of the product's display text and the ']' after it, provided no
    ']' or newline comes between them. *)
Theorem extract_default_code_bracketed (f : OdooField) (pre code rest : string) :
  field_text f = (pre ++ String "[" (code ++ String "]" rest)) ->
  ~ In "["%char (list_ascii_of_string pre) ->
  ~ In "]"%char (list_ascii_of_string code) ->
  ~ In newline (list_ascii_of_string code) ->
  extract_default_code f = strip code.
Proof.
  intros Hf H1 H2 H3; unfold extract_default_code.
  rewrite Hf, (search_brackets_skip pre _ H1); simpl.
  rewrite (bracket_body_app code rest H2 H3); reflexivity.
Qed.

Lemma extract_default_code_bracketed_witness :
  extract_default_code (FMany2one 7 "[ P-1 ] Rose Bush") = "P-1".
Proof.
  rewrite (extract_default_code_bracketed (FMany2one 7 "[ P-1 ] Rose Bush") "" " P-1 " " Rose Bush").
  - reflexivity.
  - reflexivity.
  - intros [].
  - intro H; vm_compute in H; intuition discriminate.
  - intro H; vm_compute in H; intuition discriminate.
Defined.

(** extract_default_code: a display text without '[' gives the empty
    code, and a code never contains ']' or a newline. *)
Theorem extract_default_code_shape (f : OdooField) :
  (~ In "["%char (list_ascii_of_string (field_text f)) -> extract_default_code f = "") /\
  (forall x, In x (list_ascii_of_string (extract_default_code f)) ->
     x <> "]"%char /\ x <> newline).
Proof.
  split.
  - intro H; unfold extract_default_code; rewrite search_brackets_no_open by exact H; reflexivity.
  - intros x Hx; unfold extract_default_code in Hx.
    destruct (search_brackets (field_text f)) as [b|] eqn:E; [|destruct Hx].
    unfold strip in Hx; apply rstrip_incl, lstrip_incl in Hx.
    exact (search_brackets_chars _ _ _ E Hx).
Qed.


(** odoo_total_stock: when plant size names are unique, the LEFT JOIN feeds
    the GROUP BY every quant exactly once, in order. *)
Theorem joined_sizes_unique_sizes (A : list StockQuant) (B : list PlantSize) :
  NoDup (map ps_name B) -> map fst (joined_sizes A B) = A.
Proof.
  intro H; induction A as [|a A IH]; [reflexivity|].
  unfold joined_sizes in *; cbn [flat_map]; rewrite map_app, IH.
  pose proof (filter_name_le1 (get_suffix (sq_default_code a)) B H) as Hle.
  destruct (filter (fun b => sql_eq (Some (get_suffix (sq_default_code a))) (ps_name b)) B)
    as [|b [|b' bs]]; [reflexivity|reflexivity|simpl in Hle; lia].
Qed.

Lemma joined_sizes_unique_sizes_witness :
  map fst (joined_sizes
    [{| sq_product_id := "[P-1] Rose"; sq_location_id := "F1"; sq_quantity := 3;
        sq_available_quantity := 2; sq_default_code := "P-1" |};
     {| sq_product_id := "[Q] Fern"; sq_location_id := "F2"; sq_quantity := 5;
        sq_available_quantity := 1; sq_default_code := "Q" |}]
    [{| ps_name := Some "1"; container_capacity := Some 2 |};
     {| ps_name := Some "2"; container_capacity := Some 3 |}]) =
    [{| sq_product_id := "[P-1] Rose"; sq_location_id := "F1"; sq_quantity := 3;
        sq_available_quantity := 2; sq_default_code := "P-1" |};
     {| sq_product_id := "[Q] Fern"; sq_location_id := "F2"; sq_quantity := 5;
        sq_available_quantity := 1; sq_default_code := "Q" |}].
Proof.
  apply joined_sizes_unique_sizes.
  constructor; [simpl; intros [H|[]]; discriminate H|constructor; [intros []|constructor]].
Defined.

(** odoo_total_stock: every row's plant_prefix and size_suffix are those of
    its default_code, and its ODOO_QTY and ODOO_AVAILABLE_QTY are the SUM
    aggregate over the joined quants of its GROUP BY key, whatever rounding
    that aggregate does. *)
Theorem odoo_total_stock_rows (SUM : list Q -> Q) (A : list StockQuant) (B : list PlantSize) (t : TotalStockRow) :
  In t (odoo_total_stock SUM A B) ->
  t_plant_prefix t = get_plant_prefix (t_default_code t) /\
  t_size_suffix t = get_suffix (t_default_code t) /\
  t_ODOO_QTY t = SUM (map (fun x => sq_quantity (fst x))
                   (filter (fun x => group_key_eqb (row_key t) (joined_key x))
                      (joined_sizes A B))) /\
  t_ODOO_AVAILABLE_QTY t = SUM (map (fun x => sq_available_quantity (fst x))
                   (filter (fun x => group_key_eqb (row_key t) (joined_key x))
                      (joined_sizes A B))).
Proof.
  intro H; destruct (odoo_total_stock_groups SUM A B t H) as (rs & Hg & Hq & Ha).
  destruct (group_by_inv group_key_eqb group_key_eqb_refl group_key_eqb_sym
              group_key_eqb_trans joined_key (joined_sizes A B)) as [Hinv _].
  destruct (Hinv _ _ Hg) as [Hrs Hne].
  assert (Hkey : exists x, In x (joined_sizes A B) /\
                   group_key_eqb (row_key t) (joined_key x) = true).
  { destruct rs as [|x rs']; [contradiction|]; exists x.
    apply (filter_In (fun x => group_key_eqb (row_key t) (joined_key x))).
    rewrite <- Hrs; left; reflexivity. }
  destruct Hkey as ([a c] & _ & Hk).
  unfold row_key, joined_key in Hk; cbv beta iota in Hk.
  rewrite group_key_eqb_spec in Hk; destruct Hk as (_ & _ & Hd & Hpp & Hss & _).
  split; [rewrite Hpp, Hd; reflexivity|].
  split; [rewrite Hss, Hd; reflexivity|].
  rewrite Hq, Ha, Hrs; split; reflexivity.
Qed.

Lemma odoo_total_stock_rows_witness :
  exists t, In t (odoo_total_stock (fold_right Qplus 0)
    [{| sq_product_id := "[P-1] Rose"; sq_location_id := "F1"; sq_quantity := 3;
        sq_available_quantity := 2; sq_default_code := "P-1" |}]
    [{| ps_name := Some "1"; container_capacity := Some 2 |}]) /\
  t_plant_prefix t = "P" /\ t_size_suffix t = "1" /\ t_ODOO_QTY t = 3 + 0.
Proof.
  exists {| t_product_id := "[P-1] Rose"; t_location_id := "F1"; t_ODOO_QTY := 3 + 0;
            t_ODOO_AVAILABLE_QTY := 2 + 0; t_default_code := "P-1"; t_plant_prefix := "P";
            t_size_suffix := "1"; t_container_capacity := Some 2 |}.
  assert (Hin : In {| t_product_id := "[P-1] Rose"; t_location_id := "F1"; t_ODOO_QTY := 3 + 0;
            t_ODOO_AVAILABLE_QTY := 2 + 0; t_default_code := "P-1"; t_plant_prefix := "P";
            t_size_suffix := "1"; t_container_capacity := Some 2 |}
    (odoo_total_stock (fold_right Qplus 0)
    [{| sq_product_id := "[P-1] Rose"; sq_location_id := "F1"; sq_quantity := 3;
        sq_available_quantity := 2; sq_default_code := "P-1" |}]
    [{| ps_name := Some "1"; container_capacity := Some 2 |}]))
    by (vm_compute; left; reflexivity).
  destruct (odoo_total_stock_rows _ _ _ _ Hin) as (E1 & E2 & E3 & _).
  split; [exact Hin|split; [exact E1|split; [exact E2|reflexivity]]].
Defined.

(** odoo_total_stock: no two rows have equal GROUP BY keys (product,
    location, default code, plant prefix, size suffix, container
    capacity). *)
Theorem odoo_total_stock_one_row_per_key (SUM : list Q -> Q) (A : list StockQuant) (B : list PlantSize) :
  ForallOrdPairs (fun a b => group_key_eqb a b = false) (map row_key (odoo_total_stock SUM A B)).
Proof.
  assert (E : map row_key (odoo_total_stock SUM A B) =
              map fst (group_by group_key_eqb joined_key (joined_sizes A B))).
  { unfold odoo_total_stock; rewrite map_map; apply map_ext.
    intros [[[[[[p l] d] pp] ss] c] rs]; reflexivity. }
  rewrite E; apply group_by_keys_distinct.
Qed.

(** odoo_total_stock: every quant is counted in a row of its product,
    location and default code. *)
Theorem odoo_total_stock_covers (SUM : list Q -> Q) (A : list StockQuant) (B : list PlantSize) (a : StockQuant) :
  In a A ->
  exists t, In t (odoo_total_stock SUM A B) /\ t_product_id t = sq_product_id a /\
    t_location_id t = sq_location_id a /\ t_default_code t = sq_default_code a.
Proof.
  intro Ha; destruct (joined_sizes_covers A B a Ha) as (c & Hac).
  destruct (group_by_inv group_key_eqb group_key_eqb_refl group_key_eqb_sym
              group_key_eqb_trans joined_key (joined_sizes A B)) as [_ Hcov].
  destruct (Hcov _ Hac) as (k & Hk & Ek).
  apply in_map_iff in Hk; destruct Hk as ([k' rs] & Ek' & Hg); simpl in Ek'; subst k'.
  destruct k as [[[[[p l] d] pp] ss] cc].
  unfold joined_key in Ek; cbv beta iota in Ek.
  rewrite group_key_eqb_spec in Ek; destruct Ek as (-> & -> & -> & _).
  eexists; split;
    [unfold odoo_total_stock; apply in_map_iff;
     exists (sq_product_id a, sq_location_id a, sq_default_code a, pp, ss, cc, rs);
     split; [reflexivity|exact Hg]|].
  split; [reflexivity|split; reflexivity].
Qed.

Lemma odoo_total_stock_covers_witness :
  exists t, In t (odoo_total_stock (fold_right Qplus 0)
    [{| sq_product_id := "[Q] Fern"; sq_location_id := "F2"; sq_quantity := 5;
        sq_available_quantity := 1; sq_default_code := "Q" |}] []) /\
    t_product_id t = "[Q] Fern" /\ t_location_id t = "F2" /\ t_default_code t = "Q".
Proof.
  apply (odoo_total_stock_covers _ _ []
    {| sq_product_id := "[Q] Fern"; sq_location_id := "F2"; sq_quantity := 5;
       sq_available_quantity := 1; sq_default_code := "Q" |}).
  left; reflexivity.
Defined.

(** loc_count: one row per product, and a product's count is the number of
    its odoo_total_stock rows with a non-zero ODOO_QTY; products without
    such a row have no loc_count row. *)
Theorem loc_count_rows (T : list TotalStockRow) :
  NoDup (map fst (loc_count T)) /\
  (forall p n, In (p, n) (loc_count T) <->
     (0 < n)%nat /\
     n = length (filter (fun t => negb (Qeq_bool (t_ODOO_QTY t) 0)
                                  && String.eqb (t_product_id t) p) T)).
Proof.
  pose proof (group_by_inv String.eqb String.eqb_refl string_eqb_sym_true string_eqb_trans
                t_product_id (filter (fun t => negb (Qeq_bool (t_ODOO_QTY t) 0)) T))
    as [Hinv Hcov].
  assert (Hlen : forall p, length (filter (fun r => String.eqb p (t_product_id r))
                    (filter (fun t => negb (Qeq_bool (t_ODOO_QTY t) 0)) T)) =
                  length (filter (fun t => negb (Qeq_bool (t_ODOO_QTY t) 0)
                                  && String.eqb (t_product_id t) p) T)).
  { intro p; rewrite filter_filter'; f_equal; apply filter_ext; intro t.
    rewrite (String.eqb_sym p); reflexivity. }
  split.
  - apply string_keys_NoDup.
    assert (E : map fst (loc_count T) =
                map fst (group_by String.eqb t_product_id
                           (filter (fun t => negb (Qeq_bool (t_ODOO_QTY t) 0)) T)))
      by (unfold loc_count; rewrite map_map; apply map_ext; intro; reflexivity).
    rewrite E; apply group_by_keys_distinct.
  - intros p n; split.
    + unfold loc_count; rewrite in_map_iff.
      intros ([k rs] & E & Hg); simpl in E; injection E as <- <-.
      destruct (Hinv k rs Hg) as [Hrs Hne].
      split; [destruct rs; [contradiction|simpl; lia]|].
      rewrite Hrs; apply Hlen.
    + intros [Hpos Hn].
      assert (Ht : exists t, In t (filter (fun t => negb (Qeq_bool (t_ODOO_QTY t) 0)
                                  && String.eqb (t_product_id t) p) T)).
      { destruct (filter (fun t => negb (Qeq_bool (t_ODOO_QTY t) 0)
                                  && String.eqb (t_product_id t) p) T) as [|t ts].
        - simpl in Hn; lia.
        - exists t; left; reflexivity. }
      destruct Ht as (t & Ht); apply filter_In in Ht; destruct Ht as [HtT Htc].
      apply andb_true_iff in Htc; destruct Htc as [Hnz Hp]; apply String.eqb_eq in Hp.
      assert (HtF : In t (filter (fun t => negb (Qeq_bool (t_ODOO_QTY t) 0)) T))
        by (apply filter_In; split; assumption).
      destruct (Hcov t HtF) as (k & Hk & Ek); apply String.eqb_eq in Ek.
      apply in_map_iff in Hk; destruct Hk as ([k' rs] & Ek' & Hg); simpl in Ek'; subst k'.
      destruct (Hinv k rs Hg) as [Hrs _].
      unfold loc_count; apply in_map_iff; exists (k, rs); split; [|exact Hg].
      simpl; rewrite Ek, Hp, Hn, Hrs, <- Hp, <- Ek; f_equal; apply Hlen.
Qed.

End StockTotalsFacts.
